(** * Agent: a master algorithm integrating a policy learner, an optional
    curiosity module and an optional entropy-target controller.

    Shallow embedding of [alf/algorithms/agent.py].  The Python code is
    dynamically typed, so values live in one universal type [pyval];
    namedtuples are association lists from field names to values; every
    method runs in a state-and-exception monad over a [world] that holds
    the object allocator, the emitted summaries, the log of calls made to
    collaborators and the collaborators' own hidden state. *)

From Stdlib Require Import List String Bool Arith Lia PrimFloat
  Permutation.
Import ListNotations.
Open Scope string_scope.
Open Scope list_scope.

Set Implicit Arguments.

(** ** Numeric payloads *)

(** What the embedding needs from the numbers carried by Python floats and
    by [tf.Tensor]s: addition, multiplication and the comparison with the
    literal [1.0].  No algebraic law is assumed: floating-point addition is
    not associative, so sums are always stated in the order the code
    performs them. *)
Class Numeric (R : Type) := {
  radd : R -> R -> R;
  rmul : R -> R -> R;
  rone : R;
  reqb : R -> R -> bool
}.

(** IEEE-754 binary64, the arithmetic of Python floats. *)
#[global] Instance Numeric_float : Numeric float := {
  radd := PrimFloat.add;
  rmul := PrimFloat.mul;
  rone := 1%float;
  reqb := PrimFloat.eqb
}.

(** ** Python objects *)

Inductive numkind := PyFloat | TfTensor.

(** The exceptions the embedding distinguishes; [Failure] is whatever a
    collaborator raises. *)
Inductive exn :=
| AttributeError (name : string)
| TypeError
| ValueError (name : string)
| Failure (msg : string).

Inductive result (A : Type) :=
| Ok (a : A)
| Err (e : exn).
Arguments Ok {A} a.
Arguments Err {A} e.

Set Warnings "-register-all,-inexact-float".

Section Objects.
Context {R D : Type}.

(** [PUnit] is the empty tuple [()], the default of every composite
    field.  A number carries the identity of its object ([id(x)]) next to
    its payload.  [PData] stands for data the agent only passes along
    (observations, actions, network states, specs).  [PNamed] is a
    namedtuple: class name and fields in declaration order. *)
Inductive pyval :=
| PUnit
| PNum (k : numkind) (oid : nat) (x : R)
| PData (d : D)
| PNamed (cls : string) (fields : list (string * pyval)).

(** [isinstance(v, tf.Tensor)] *)
Definition is_tensor (v : pyval) : bool :=
  match v with
  | PNum TfTensor _ _ => true
  | _ => false
  end.

(** [id(v)]: identity is tracked for numbers, the only objects that
    arithmetic creates; every other value has the untracked identity
    [None], which the code only ever compares with itself. *)
Definition py_id (v : pyval) : option nat :=
  match v with
  | PNum _ o _ => Some o
  | _ => None
  end.

Definition id_eqb (a b : option nat) : bool :=
  match a, b with
  | Some x, Some y => Nat.eqb x y
  | None, None => true
  | _, _ => false
  end.

(** The payload of a [tf.Tensor], if the value is one. *)
Definition tensor_payload (v : pyval) : option R :=
  match v with
  | PNum TfTensor _ x => Some x
  | _ => None
  end.

(** The payload of any number. *)
Definition num_payload (v : pyval) : option R :=
  match v with
  | PNum _ _ x => Some x
  | _ => None
  end.

(** *** namedtuples *)

Fixpoint assoc (name : string) (kvs : list (string * pyval)) : option pyval :=
  match kvs with
  | [] => None
  | (k, v) :: rest => if String.eqb name k then Some v else assoc name rest
  end.

(** [alf.namedtuple(cls, field_names, default_value)] applied to keyword
    arguments: every declared field, in order, holding the keyword's
    value or the default.  Callers in this file pass declared names
    only. *)
Definition namedtuple (cls : string) (field_names : list string)
           (default_value : pyval) (kwargs : list (string * pyval)) : pyval :=
  PNamed cls
         (map (fun f => (f, match assoc f kwargs with
                            | Some v => v
                            | None => default_value
                            end)) field_names).

Definition py_getattr (v : pyval) (name : string) : result pyval :=
  match v with
  | PNamed _ fs =>
      match assoc name fs with
      | Some x => Ok x
      | None => Err (AttributeError name)
      end
  | _ => Err (AttributeError name)
  end.

Fixpoint set_field (name : string) (x : pyval) (fs : list (string * pyval))
  : list (string * pyval) :=
  match fs with
  | [] => []
  | (k, v) :: rest =>
      if String.eqb name k then (k, x) :: rest
      else (k, v) :: set_field name x rest
  end.

(** [v._replace(name=x)]: a new tuple of the same class; an unknown field
    name is a [ValueError]. *)
Definition py_replace (v : pyval) (name : string) (x : pyval) : result pyval :=
  match v with
  | PNamed cls fs =>
      match assoc name fs with
      | Some _ => Ok (PNamed cls (set_field name x fs))
      | None => Err (ValueError name)
      end
  | _ => Err (AttributeError "_replace")
  end.

Definition field_names (v : pyval) : list string :=
  match v with
  | PNamed _ fs => map fst fs
  | _ => []
  end.

(** [self._extrinsic_reward_coef != 1.0] *)
Definition py_ne_one `{Numeric R} (v : pyval) : bool :=
  match v with
  | PNum _ _ x => negb (reqb x rone)
  | _ => true
  end.

End Objects.

Arguments pyval : clear implicits.

(** ** The world, and the monad the methods run in *)

Section AgentModel.
Context {R D H : Type} `{Numeric R}.

Abbreviation value := (pyval R D).

(** One entry per call the agent makes to a collaborator, with the
    arguments it passes. *)
Inductive call :=
| EncodingNetwork (observation : value)
| RlPredict (time_step state : value)
| RlRollout (time_step state : value)
| IcmTrainStep (observation prev_action state : value)
               (calc_intrinsic_reward : bool)
| EntropyTargetTrainStep (action : value)
| RlCalcLoss (training_info : value)
| SubCalcLoss (name : string) (info : value)
| RlPreprocessExperience (exp : value).

(** [next_id] is the identity the next created number receives;
    [summaries] are the diagnostics emitted through
    [add_reward_summary]; [calls] is the log of collaborator calls, oldest
    first; [hidden] is everything the collaborators own (network
    variables, random generators, counters), which the agent never reads
    or writes itself. *)
Record world := {
  next_id : nat;
  summaries : list (string * value);
  calls : list call;
  hidden : H
}.

Definition M (A : Type) : Type := world -> result A * world.

Definition ret {A} (a : A) : M A := fun w => (Ok a, w).

Definition bind {A B} (m : M A) (k : A -> M B) : M B :=
  fun w =>
    match m w with
    | (Ok a, w') => k a w'
    | (Err e, w') => (Err e, w')
    end.

Definition lift {A} (r : result A) : M A := fun w => (r, w).

(** The signature of every collaborator method: it may raise, and it may
    read and change the hidden state. *)
Definition method (A : Type) : Type := H -> result A * H.

Definition invoke {A} (c : call) (f : method A) : M A :=
  fun w =>
    let (r, h) := f (hidden w) in
    (r, {| next_id := next_id w;
           summaries := summaries w;
           calls := calls w ++ [c];
           hidden := h |}).

(** Creating a number allocates a new object. *)
Definition alloc (k : numkind) (x : R) : M value :=
  fun w =>
    (Ok (PNum k (next_id w) x),
     {| next_id := S (next_id w);
        summaries := summaries w;
        calls := calls w;
        hidden := hidden w |}).

(** Float with float is a float; anything with a tensor is a tensor. *)
Definition join (a b : numkind) : numkind :=
  match a, b with
  | PyFloat, PyFloat => PyFloat
  | _, _ => TfTensor
  end.

(** [a + b] and [a * b] (also as [+=] and [*=]: neither floats nor
    tensors update in place).  Arithmetic is modelled on numbers; any
    other operand is a [TypeError]. *)
Definition py_arith (f : R -> R -> R) (a b : value) : M value :=
  match a, b with
  | PNum ka _ x, PNum kb _ y => alloc (join ka kb) (f x y)
  | _, _ => lift (Err TypeError)
  end.

Definition py_add : value -> value -> M value := py_arith radd.
Definition py_mul : value -> value -> M value := py_arith rmul.

(** Modelled from the spec: [add_reward_summary] of the base class is
    not part of this file; it "emits a diagnostic record" of the value
    under the given name.  The world records every such call, in order;
    what the base class then writes is its own business. *)
Definition add_reward_summary (name : string) (v : value) : M unit :=
  fun w =>
    (Ok tt,
     {| next_id := next_id w;
        summaries := summaries w ++ [(name, v)];
        calls := calls w;
        hidden := hidden w |}).

End AgentModel.

Declare Scope py_scope.
Delimit Scope py_scope with py.
Notation "x <- m ;; k" := (bind m (fun x => k))
  (at level 100, m at next level, right associativity) : py_scope.
Notation "m ;;; k" := (bind m (fun _ => k))
  (at level 100, right associativity) : py_scope.
Open Scope py_scope.

(** ** Collaborators and the agent *)

Section AgentDef.
Context {R D H : Type} `{Numeric R}.

Abbreviation value := (pyval R D).
Abbreviation M := (@M R D H).
Abbreviation method := (@method H).

(** The encoding network, called on an observation, returns a pair
    (output, network state). *)
Definition Network : Type := value -> method (value * value).

(** The policy learner ([rl_algorithm_cls], [ActorCriticAlgorithm] by
    default).  Its class is not part of this file; these are the
    attributes and methods the agent uses. *)
Record RLAlgorithm := {
  rl_train_state_spec : value;
  rl_predict_state_spec : value;
  rl_predict : value -> value -> method value;
  rl_rollout : value -> value -> method value;
  rl_calc_loss : value -> method value;
  rl_preprocess_experience : value -> method value
}.

(** The curiosity module.  [icm_train_step inputs state
    calc_intrinsic_reward] takes the pair (observation, previous action) as
    [inputs].  [icm_predict_state_spec] is part of every algorithm's
    interface; the agent never reads it. *)
Record ICMAlgorithm := {
  icm_train_state_spec : value;
  icm_predict_state_spec : value;
  icm_train_step : value * value -> value -> bool -> method value;
  icm_calc_loss : value -> method value
}.

Record EntropyTargetAlgorithm := {
  et_train_step : value -> method value;
  et_calc_loss : value -> method value
}.

Definition AgentState := @namedtuple R D "AgentState" ["rl"; "icm"] PUnit.

Definition AgentInfo :=
  @namedtuple R D "AgentInfo" ["rl"; "icm"; "entropy_target"] PUnit.

Definition AgentLossInfo :=
  @namedtuple R D "AgentLossInfo" ["rl"; "icm"; "entropy_target"] PUnit.

(** [tf_agents.trajectories.policy_step.PolicyStep] *)
Definition PolicyStep :=
  @namedtuple R D "PolicyStep" ["action"; "state"; "info"] PUnit.

(** Modelled from the spec: the declaration of [LossInfo] is not part of
    this file; a loss record has the fields [loss], [scalar_loss] and
    [extra], the three the agent passes. *)
Definition LossInfo :=
  @namedtuple R D "LossInfo" ["loss"; "scalar_loss"; "extra"] PUnit.

(** The attributes [__init__] stores, and the two specs it hands to the
    base class. *)
Record Agent := {
  predict_state_spec : value;
  train_state_spec : value;
  _rl_algorithm : RLAlgorithm;
  _entropy_target_algorithm : option EntropyTargetAlgorithm;
  _encoding_network : option Network;
  _intrinsic_reward_coef : value;
  _extrinsic_reward_coef : value;
  _icm : option ICMAlgorithm
}.

(** The constructor of [EntropyTargetAlgorithm], a class that is not part
    of this file, applied to the action spec and [debug_summaries]. *)
Variable EntropyTargetAlgorithm_cls :
  value -> bool -> result EntropyTargetAlgorithm.

Definition try {A B} (r : result A) (k : A -> result B) : result B :=
  match r with
  | Ok a => k a
  | Err e => Err e
  end.

(** [Agent.__init__].  The grouping of modules by optimizer (lines 92-101
    and 121-131 of the source) and the arguments only forwarded to the base
    class take no part in what follows and are left out. *)
Definition __init__
           (action_spec : value)
           (rl_algorithm_cls : value -> bool -> result RLAlgorithm)
           (encoding_network : option Network)
           (intrinsic_curiosity_module : option ICMAlgorithm)
           (intrinsic_reward_coef extrinsic_reward_coef : value)
           (enforce_entropy_target : bool)
           (debug_summaries : bool) : result Agent :=
  try (rl_algorithm_cls action_spec debug_summaries) (fun rl_algorithm =>
  let train_state_spec := AgentState [("rl", rl_train_state_spec rl_algorithm)] in
  let predict_state_spec := AgentState [("rl", rl_predict_state_spec rl_algorithm)] in
  try (match intrinsic_curiosity_module with
       | Some icm => py_replace train_state_spec "icm" (icm_train_state_spec icm)
       | None => Ok train_state_spec
       end) (fun train_state_spec =>
  try (if enforce_entropy_target
       then try (EntropyTargetAlgorithm_cls action_spec debug_summaries)
                (fun a => Ok (Some a))
       else Ok None) (fun entropy_target_algorithm =>
  Ok {| predict_state_spec := predict_state_spec;
        train_state_spec := train_state_spec;
        _rl_algorithm := rl_algorithm;
        _entropy_target_algorithm := entropy_target_algorithm;
        _encoding_network := encoding_network;
        _intrinsic_reward_coef := intrinsic_reward_coef;
        _extrinsic_reward_coef := extrinsic_reward_coef;
        _icm := intrinsic_curiosity_module |}))).

Definition getattr (v : value) (name : string) : M value :=
  lift (py_getattr v name).

Definition _replace (v : value) (name : string) (x : value) : M value :=
  lift (py_replace v name x).

Definition _encode (self : Agent) (time_step : value) : M value :=
  observation <- getattr time_step "observation" ;;
  match _encoding_network self with
  | Some net =>
      out <- invoke (EncodingNetwork observation) (net observation) ;;
      ret (fst out)
  | None => ret observation
  end.

(** [Agent.predict] *)
Definition predict (self : Agent) (time_step state : value) : M value :=
  observation <- _encode self time_step ;;
  let new_state := AgentState [] in
  time_step' <- _replace time_step "observation" observation ;;
  state_rl <- getattr state "rl" ;;
  rl_step <- invoke (RlPredict time_step' state_rl)
                    (rl_predict (_rl_algorithm self) time_step' state_rl) ;;
  rl_state <- getattr rl_step "state" ;;
  new_state <- _replace new_state "rl" rl_state ;;
  action <- getattr rl_step "action" ;;
  ret (PolicyStep [("action", action); ("state", new_state); ("info", PUnit)]).

(** [Agent.rollout] *)
Definition rollout (self : Agent) (time_step state : value)
           (with_experience : bool) : M value :=
  let new_state := AgentState [] in
  let info := AgentInfo [] in
  observation <- _encode self time_step ;;
  p <- match _icm self with
       | Some icm =>
           prev_action <- getattr time_step "prev_action" ;;
           state_icm <- getattr state "icm" ;;
           icm_step <- invoke (IcmTrainStep observation prev_action state_icm
                                            (negb with_experience))
                              (icm_train_step icm (observation, prev_action)
                                              state_icm (negb with_experience)) ;;
           icm_info <- getattr icm_step "info" ;;
           info <- _replace info "icm" icm_info ;;
           icm_state <- getattr icm_step "state" ;;
           new_state <- _replace new_state "icm" icm_state ;;
           ret (info, new_state)
       | None => ret (info, new_state)
       end ;;
  let info := fst p in
  let new_state := snd p in
  time_step' <- _replace time_step "observation" observation ;;
  state_rl <- getattr state "rl" ;;
  rl_step <- invoke (RlRollout time_step' state_rl)
                    (rl_rollout (_rl_algorithm self) time_step' state_rl) ;;
  rl_state <- getattr rl_step "state" ;;
  new_state <- _replace new_state "rl" rl_state ;;
  rl_info <- getattr rl_step "info" ;;
  info <- _replace info "rl" rl_info ;;
  info <- match _entropy_target_algorithm self with
          | Some et =>
              action <- getattr rl_step "action" ;;
              et_step <- invoke (EntropyTargetTrainStep action)
                                (et_train_step et action) ;;
              et_info <- getattr et_step "info" ;;
              _replace info "entropy_target" et_info
          | None => ret info
          end ;;
  action <- getattr rl_step "action" ;;
  ret (PolicyStep [("action", action); ("state", new_state); ("info", info)]).

(** [Agent.calc_training_reward] *)
Definition calc_training_reward (self : Agent) (external_reward info : value)
  : M value :=
  let reward := external_reward in
  reward <- (if py_ne_one (_extrinsic_reward_coef self)
             then py_mul reward (_extrinsic_reward_coef self)
             else ret reward) ;;
  reward <- match _icm self with
            | Some _ =>
                info_icm <- getattr info "icm" ;;
                icm_reward <- getattr info_icm "reward" ;;
                add_reward_summary "reward/icm" icm_reward ;;;
                info_icm <- getattr info "icm" ;;
                icm_reward <- getattr info_icm "reward" ;;
                scaled <- py_mul (_intrinsic_reward_coef self) icm_reward ;;
                py_add reward scaled
            | None => ret reward
            end ;;
  (if negb (id_eqb (py_id reward) (py_id external_reward))
   then add_reward_summary "reward/overall" reward
   else ret tt) ;;;
  ret reward.

Definition _add (x y : value) : M value :=
  if negb (is_tensor y) then ret x
  else if negb (is_tensor x) then ret y
  else py_add x y.

(** [_update_loss]; [algorithm] is the [calc_loss] method of the
    sub-algorithm, or [None]. *)
Definition _update_loss (loss_info training_info : value) (name : string)
           (algorithm : option (value -> method value)) : M value :=
  match algorithm with
  | None => ret loss_info
  | Some calc_loss =>
      info <- getattr training_info "info" ;;
      sub_info <- getattr info name ;;
      new_loss_info <- invoke (SubCalcLoss name sub_info) (calc_loss sub_info) ;;
      x <- getattr loss_info "loss" ;;
      y <- getattr new_loss_info "loss" ;;
      loss <- _add x y ;;
      x <- getattr loss_info "scalar_loss" ;;
      y <- getattr new_loss_info "scalar_loss" ;;
      scalar_loss <- _add x y ;;
      extra <- getattr loss_info "extra" ;;
      new_extra <- getattr new_loss_info "extra" ;;
      extra <- _replace extra name new_extra ;;
      ret (LossInfo [("loss", loss); ("scalar_loss", scalar_loss);
                     ("extra", extra)])
  end.

(** The test guarding the substitution of the reward in [calc_loss]:
    [self._icm is not None and
     isinstance(training_info.info.icm.reward, tf.Tensor)]. *)
Definition icm_reward_is_tensor (self : Agent) (training_info : value) : M bool :=
  match _icm self with
  | None => ret false
  | Some _ =>
      info <- getattr training_info "info" ;;
      info_icm <- getattr info "icm" ;;
      icm_reward <- getattr info_icm "reward" ;;
      ret (is_tensor icm_reward)
  end.

(** The first statement of [Agent.calc_loss] (lines 228-232): the training
    info the rest of the method works on. *)
Definition substitute_reward (self : Agent) (training_info : value) : M value :=
  c <- icm_reward_is_tensor self training_info ;;
  if c : bool
  then
    reward <- getattr training_info "reward" ;;
    info <- getattr training_info "info" ;;
    reward <- calc_training_reward self reward info ;;
    _replace training_info "reward" reward
  else ret training_info.

(** [Agent.calc_loss] *)
Definition calc_loss (self : Agent) (training_info : value) : M value :=
  training_info <- substitute_reward self training_info ;;
  info <- getattr training_info "info" ;;
  info_rl <- getattr info "rl" ;;
  rl_training_info <- _replace training_info "info" info_rl ;;
  rl_loss_info <- invoke (RlCalcLoss rl_training_info)
                         (rl_calc_loss (_rl_algorithm self) rl_training_info) ;;
  rl_extra <- getattr rl_loss_info "extra" ;;
  loss_info <- _replace rl_loss_info "extra" (AgentLossInfo [("rl", rl_extra)]) ;;
  loss_info <- _update_loss loss_info training_info "icm"
                            (option_map icm_calc_loss (_icm self)) ;;
  loss_info <- _update_loss loss_info training_info "entropy_target"
                            (option_map et_calc_loss
                                        (_entropy_target_algorithm self)) ;;
  ret loss_info.

(** [Agent.preprocess_experience] *)
Definition preprocess_experience (self : Agent) (exp : value) : M value :=
  exp_reward <- getattr exp "reward" ;;
  exp_info <- getattr exp "info" ;;
  reward <- calc_training_reward self exp_reward exp_info ;;
  exp' <- _replace exp "reward" reward ;;
  invoke (RlPreprocessExperience exp')
         (rl_preprocess_experience (_rl_algorithm self) exp').

End AgentDef.

(** ** The agent over its lifetime *)

Section Lifetime.
Context {R D H : Type} `{Numeric R}.

Abbreviation value := (pyval R D).

Inductive operation :=
| OpPredict (time_step state : value)
| OpRollout (time_step state : value) (with_experience : bool)
| OpCalcTrainingReward (external_reward info : value)
| OpCalcLoss (training_info : value)
| OpPreprocessExperience (exp : value).

Definition perform (self : @Agent R D H) (op : operation) : M value :=
  match op with
  | OpPredict time_step state => predict self time_step state
  | OpRollout time_step state with_experience =>
      rollout self time_step state with_experience
  | OpCalcTrainingReward external_reward info =>
      calc_training_reward self external_reward info
  | OpCalcLoss training_info => calc_loss self training_info
  | OpPreprocessExperience exp => preprocess_experience self exp
  end.

(** One method call on the agent object.  No method assigns an attribute
    of [self] after [__init__], so the object after the call is the object
    before it; only the world moves. *)
Definition step (s : @Agent R D H * world) (op : operation)
  : @Agent R D H * world :=
  (fst s, snd (perform (fst s) op (snd s))).

Definition lifetime (s : @Agent R D H * world) (ops : list operation)
  : @Agent R D H * world :=
  fold_left step ops s.

End Lifetime.

(** * Vocabulary of the statements *)

Section Vocabulary.
Context {R D H : Type} `{Numeric R}.

Abbreviation value := (pyval R D).
Abbreviation M := (@M R D H).
Abbreviation world := (@world R D H).
Abbreviation call := (@call R D).
Abbreviation Agent := (@Agent R D H).

(** ** What a computation does to the world *)

(** [m] only appends calls that satisfy [P] to the log. *)
Definition logs {A} (P : call -> Prop) (m : M A) : Prop :=
  forall w, exists new, calls (snd (m w)) = calls w ++ new /\ Forall P new.

(** [m] creates no object and emits no summary. *)
Definition silent {A} (m : M A) : Prop :=
  forall w, next_id (snd (m w)) = next_id w /\
            summaries (snd (m w)) = summaries w.

(** A collaborator method that only reads: it leaves the hidden state as
    it found it. *)
Definition read_only {A} (f : H -> result A * H) : Prop :=
  forall h, snd (f h) = h.

(** [m] leaves the hidden state as it found it. *)
Definition keeps_hidden {A} (m : M A) : Prop :=
  forall w, hidden (snd (m w)) = hidden w.

(** The outcome of [m] and the hidden state it leaves depend on the hidden
    state it starts from, and on nothing else in the world. *)
Definition hidden_only {A} (m : M A) : Prop :=
  forall w1 w2,
    hidden w1 = hidden w2 ->
    fst (m w1) = fst (m w2) /\ hidden (snd (m w1)) = hidden (snd (m w2)).

(** ** Predict *)

(** The calls of the inference path. *)
Definition inference_call (c : call) : Prop :=
  match c with
  | EncodingNetwork _ | RlPredict _ _ => True
  | _ => False
  end.

(** The encoding network and the policy's [predict] are inference only:
    they do not change the hidden state. *)
Definition encoder_read_only (self : Agent) : Prop :=
  forall net, _encoding_network self = Some net ->
  forall observation, read_only (net observation).

Definition policy_predict_read_only (self : Agent) : Prop :=
  forall time_step state,
    read_only (rl_predict (_rl_algorithm self) time_step state).

(** ** The stages of a rollout *)

(** The encoding stage from hidden state [h]: the calls made, the encoded
    observation, the hidden state left. *)
Inductive encode_stage (self : Agent) (time_step : value) (h : H)
  : list call -> value -> H -> Prop :=
| encode_skipped observation :
    _encoding_network self = None ->
    py_getattr time_step "observation" = Ok observation ->
    encode_stage self time_step h [] observation h
| encode_done net observation output net_state h' :
    _encoding_network self = Some net ->
    py_getattr time_step "observation" = Ok observation ->
    net observation h = (Ok (output, net_state), h') ->
    encode_stage self time_step h [EncodingNetwork observation] output h'.

(** The curiosity stage: the calls made, the info and the state it fills
    in, the hidden state left. *)
Inductive icm_stage (self : Agent) (time_step state observation : value)
          (with_experience : bool) (h : H)
  : list call -> value -> value -> H -> Prop :=
| icm_skipped :
    _icm self = None ->
    icm_stage self time_step state observation with_experience h
              [] PUnit PUnit h
| icm_done icm prev_action state_icm icm_step h' icm_info icm_state :
    _icm self = Some icm ->
    py_getattr time_step "prev_action" = Ok prev_action ->
    py_getattr state "icm" = Ok state_icm ->
    icm_train_step icm (observation, prev_action) state_icm
                   (negb with_experience) h = (Ok icm_step, h') ->
    py_getattr icm_step "info" = Ok icm_info ->
    py_getattr icm_step "state" = Ok icm_state ->
    icm_stage self time_step state observation with_experience h
              [IcmTrainStep observation prev_action state_icm
                            (negb with_experience)]
              icm_info icm_state h'.

(** The entropy-target stage: the calls made, the info it fills in, the
    hidden state left. *)
Inductive et_stage (self : Agent) (action : value) (h : H)
  : list call -> value -> H -> Prop :=
| et_skipped :
    _entropy_target_algorithm self = None ->
    et_stage self action h [] PUnit h
| et_done et et_step h' et_info :
    _entropy_target_algorithm self = Some et ->
    et_train_step et action h = (Ok et_step, h') ->
    py_getattr et_step "info" = Ok et_info ->
    et_stage self action h [EntropyTargetTrainStep action] et_info h'.

(** ** The training reward *)

Definition same_object (a b : value) : bool := id_eqb (py_id a) (py_id b).

(** The object was created before the world reached [w]. *)
Definition allocated (v : value) (w : world) : Prop :=
  match py_id v with
  | Some o => o < next_id w
  | None => True
  end.

(** The summary of the intrinsic reward, emitted whenever there is a
    curiosity module. *)
Definition icm_summary (self : Agent) (info : value) : list (string * value) :=
  match _icm self with
  | Some _ =>
      match py_getattr info "icm" with
      | Ok info_icm =>
          match py_getattr info_icm "reward" with
          | Ok icm_reward => [("reward/icm", icm_reward)]
          | Err _ => []
          end
      | Err _ => []
      end
  | None => []
  end.

(** ** The loss *)

(** The sum as the specification words it: the losses that are tensors,
    added from left to right; a loss that is not a tensor counts for
    nothing. *)
Definition tensor_payloads (vs : list value) : list R :=
  flat_map (fun v => match tensor_payload v with
                     | Some x => [x]
                     | None => []
                     end) vs.

Definition left_sum (xs : list R) : option R :=
  match xs with
  | [] => None
  | x :: rest => Some (fold_left radd rest x)
  end.

Definition tensor_sum (vs : list value) : option R :=
  left_sum (tensor_payloads vs).

Definition add_opt (a b : option R) : option R :=
  match a, b with
  | Some x, Some y => Some (radd x y)
  | Some x, None => Some x
  | None, _ => b
  end.

(** [l] is what [_add] makes of [x] and [y]. *)
Definition added (x y l : value) : Prop :=
  tensor_payload l = add_opt (tensor_payload x) (tensor_payload y) /\
  (is_tensor y = false -> l = x).

(** The three fields of a loss record. *)
Definition loss_record (v loss scalar_loss extra : value) : Prop :=
  py_getattr v "loss" = Ok loss /\
  py_getattr v "scalar_loss" = Ok scalar_loss /\
  py_getattr v "extra" = Ok extra.

(** The loss stage of an optional sub-algorithm from hidden state [h]: the
    calls made, the fields of the loss record it returned (none when the
    sub-algorithm is absent), the hidden state left. *)
Inductive loss_stage (info : value) (name : string)
          (algorithm : option (value -> H -> result value * H)) (h : H)
  : list call -> list (value * value * value) -> H -> Prop :=
| loss_skipped :
    algorithm = None ->
    loss_stage info name algorithm h [] [] h
| loss_done calc sub_info new_loss_info h' loss scalar_loss extra :
    algorithm = Some calc ->
    py_getattr info name = Ok sub_info ->
    calc sub_info h = (Ok new_loss_info, h') ->
    loss_record new_loss_info loss scalar_loss extra ->
    loss_stage info name algorithm h
               [SubCalcLoss name sub_info] [(loss, scalar_loss, extra)] h'.

Definition part_loss (p : value * value * value) : value := fst (fst p).
Definition part_scalar_loss (p : value * value * value) : value := snd (fst p).
Definition part_extra (p : value * value * value) : value := snd p.

(** The value of a composite field: the extra of the stage that ran, or the
    default [()]. *)
Definition extra_or_default (parts : list (value * value * value)) : value :=
  match parts with
  | [] => PUnit
  | p :: _ => part_extra p
  end.

(** The condition under which the reward is substituted, as the
    specification words it: there is a curiosity module and the reward
    field of its info is a tensor. *)
Definition curiosity_reward_computed (self : Agent) (training_info : value)
  : bool :=
  match _icm self with
  | None => false
  | Some _ =>
      match py_getattr training_info "info" with
      | Ok info =>
          match py_getattr info "icm" with
          | Ok info_icm =>
              match py_getattr info_icm "reward" with
              | Ok icm_reward => is_tensor icm_reward
              | Err _ => false
              end
          | Err _ => false
          end
      | Err _ => false
      end
  end.

Definition sub_loss_call (c : call) : Prop :=
  match c with
  | SubCalcLoss _ _ => True
  | _ => False
  end.

End Vocabulary.

(** * Modules and the optimizers that train them *)

Section Grouping.
Context {R D : Type}.

Abbreviation value := (pyval R D).

(** What [__init__] reads of a module (the encoding network or an
    algorithm) while it groups the modules by optimizer: the [optimizer]
    attribute, [None] when the module has none, and the
    [trainable_variables]. *)
Record TfModule := {
  optimizer : option value;
  trainable_variables : list value
}.

(** [_add_algorithm], the closure of [__init__], with the two lists it
    appends to passed in and out.  [module_sets[0].append] on an empty
    [module_sets] would be an IndexError: [None] here. *)
Definition _add_algorithm (algorithm : option TfModule)
           (optimizers : list (option value))
           (module_sets : list (list (option TfModule)))
  : option (list (option value) * list (list (option TfModule))) :=
  match algorithm with
  | None => Some (optimizers, module_sets)
  | Some a =>
      match optimizer a with
      | Some o => Some (optimizers ++ [Some o], module_sets ++ [[Some a]])
      | None =>
          match module_sets with
          | first :: rest => Some (optimizers, (first ++ [Some a]) :: rest)
          | [] => None
          end
      end
  end.


Definition and_then {A B} (o : option A) (k : A -> option B) : option B :=
  match o with
  | Some a => k a
  | None => None
  end.

(** Lines 92-119 of [Agent.__init__], as far as [optimizers] and
    [module_sets] go: the lists start as [[optimizer]] and
    [[[encoding_network]]]; the policy is added, then the curiosity module
    if one was given, then the entropy-target controller if one was
    created. *)
Definition init_optimizers (optimizer0 : option value)
           (encoding_network : option TfModule)
           (rl_algorithm : TfModule)
           (intrinsic_curiosity_module : option TfModule)
           (entropy_target_algorithm : option TfModule)
  : option (list (option value) * list (list (option TfModule))) :=
  let optimizers := [optimizer0] in
  let module_sets := [[encoding_network]] in
  and_then (_add_algorithm (Some rl_algorithm) optimizers module_sets)
           (fun reg =>
  and_then (match intrinsic_curiosity_module with
            | Some icm => _add_algorithm (Some icm) (fst reg) (snd reg)
            | None => Some reg
            end) (fun reg =>
  match entropy_target_algorithm with
  | Some et => _add_algorithm (Some et) (fst reg) (snd reg)
  | None => Some reg
  end)).


(** ** Vocabulary for the grouping *)

Definition has_optimizer (a : TfModule) : bool :=
  match optimizer a with
  | Some _ => true
  | None => false
  end.

(** The modules that are not [None]. *)
Definition present (modules : list (option TfModule)) : list TfModule :=
  flat_map (fun m => match m with
                     | Some a => [a]
                     | None => []
                     end) modules.

(** The grouping in words: the first optimizer is the agent's own and
    trains the encoding network and the algorithms without an optimizer;
    every algorithm with an optimizer has a group of its own, in the order
    the algorithms were added. *)
Definition grouped (optimizer0 : option value)
           (encoding_network : option TfModule) (algorithms : list TfModule)
  : list (option value) * list (list (option TfModule)) :=
  (optimizer0 :: map optimizer (filter has_optimizer algorithms),
   (encoding_network
      :: map Some (filter (fun a => negb (has_optimizer a)) algorithms))
     :: map (fun a => [Some a]) (filter has_optimizer algorithms)).

End Grouping.

Section MoreVocabulary.
Context {R D H : Type} `{Numeric R}.

Abbreviation value := (pyval R D).
Abbreviation call := (@call R D).
Abbreviation Agent := (@Agent R D H).

(** A tuple, named or not: multiplying one by a Python float is a
    TypeError. *)
Definition is_tuple (v : value) : bool :=
  match v with
  | PUnit | PNamed _ _ => true
  | _ => false
  end.

(** With no encoding network, what the collaborators of a step on
    [time_step] may be called with: the policy gets the time step as it
    came, the curiosity module the observation as it came, and there is no
    call to an encoder. *)
Definition sees_raw (time_step : value) (c : call) : Prop :=
  match c with
  | RlPredict t _ | RlRollout t _ => t = time_step
  | IcmTrainStep observation _ _ _ =>
      py_getattr time_step "observation" = Ok observation
  | EncodingNetwork _ => False
  | _ => True
  end.


(** Whether [calc_training_reward] performs any arithmetic. *)
Definition composes (self : Agent) : bool :=
  py_ne_one (_extrinsic_reward_coef self)
  || match _icm self with Some _ => true | None => false end.

(** [m] emits no summary. *)
Definition quiet {A} (m : @M R D H A) : Prop :=
  forall w, summaries (snd (m w)) = summaries w.

End MoreVocabulary.

(** * A concrete agent *)

(** Payloads are binary64 floats, opaque data are labels, and the hidden
    state of the collaborators is a counter of the training steps they
    took. *)
Module Scenario.

Definition value : Type := pyval float string.

Definition py_float (oid : nat) (x : float) : value := PNum PyFloat oid x.
Definition tf_tensor (oid : nat) (x : float) : value := PNum TfTensor oid x.

(** A policy that always goes left, keeps its state, and reports a loss of
    1.5. *)
Definition policy : @RLAlgorithm float string nat := {|
  rl_train_state_spec := PData "actor_state";
  rl_predict_state_spec := PData "actor_state";
  rl_predict := fun _ state h =>
    (Ok (PolicyStep [("action", PData "left"); ("state", state)]), h);
  rl_rollout := fun _ state h =>
    (Ok (PolicyStep [("action", PData "left"); ("state", state);
                     ("info", PData "actor_critic_info")]), S h);
  rl_calc_loss := fun _ h =>
    (Ok (LossInfo [("loss", tf_tensor 1 1.5);
                   ("scalar_loss", tf_tensor 2 1.5);
                   ("extra", PData "actor_critic_loss")]), h);
  rl_preprocess_experience := fun exp h => (Ok exp, h)
|}.

(** A curiosity module whose intrinsic reward is 0.2 when asked to compute
    one and the placeholder [()] otherwise, and whose loss is 0.25. *)
Definition curiosity : @ICMAlgorithm float string nat := {|
  icm_train_state_spec := PData "feature";
  icm_predict_state_spec := PData "feature";
  icm_train_step := fun _ _ calc_intrinsic_reward h =>
    (Ok (PNamed "AlgorithmStep"
           [("outputs", PUnit);
            ("state", PData "next_feature");
            ("info", PNamed "ICMInfo"
                       [("reward", if calc_intrinsic_reward
                                   then tf_tensor 3 0.2 else PUnit);
                        ("loss", PData "icm_losses")])]), S h);
  icm_calc_loss := fun _ h =>
    (Ok (LossInfo [("loss", tf_tensor 4 0.25);
                   ("extra", PData "icm_loss")]), h)
|}.

(** An entropy-target controller with loss 0.5. *)
Definition entropy_target : @EntropyTargetAlgorithm float string nat := {|
  et_train_step := fun _ h =>
    (Ok (PNamed "AlgorithmStep"
           [("outputs", PUnit); ("state", PUnit);
            ("info", PData "entropy_target_info")]), h);
  et_calc_loss := fun _ h =>
    (Ok (LossInfo [("loss", tf_tensor 5 0.5);
                   ("extra", PData "entropy_target_loss")]), h)
|}.

Definition encoder : @Network float string nat :=
  fun _ h => (Ok (PData "encoded", PUnit), h).

Definition EntropyTargetAlgorithm_cls (_ : value) (_ : bool)
  : result (@EntropyTargetAlgorithm float string nat) := Ok entropy_target.

Definition action_spec : value := PData "discrete(2)".

(** Policy only, both coefficients 1.0. *)
Definition plain_agent : @Agent float string nat := {|
  predict_state_spec :=
    PNamed "AgentState" [("rl", PData "actor_state"); ("icm", PUnit)];
  train_state_spec :=
    PNamed "AgentState" [("rl", PData "actor_state"); ("icm", PUnit)];
  _rl_algorithm := policy;
  _entropy_target_algorithm := None;
  _encoding_network := None;
  _intrinsic_reward_coef := py_float 6 1;
  _extrinsic_reward_coef := py_float 7 1;
  _icm := None
|}.

(** Policy and curiosity module, intrinsic coefficient 2.0, no
    entropy-target controller. *)
Definition curious_agent : @Agent float string nat := {|
  predict_state_spec :=
    PNamed "AgentState" [("rl", PData "actor_state"); ("icm", PUnit)];
  train_state_spec :=
    PNamed "AgentState" [("rl", PData "actor_state"); ("icm", PData "feature")];
  _rl_algorithm := policy;
  _entropy_target_algorithm := None;
  _encoding_network := None;
  _intrinsic_reward_coef := py_float 6 2;
  _extrinsic_reward_coef := py_float 7 1;
  _icm := Some curiosity
|}.

(** Everything: encoder, policy, curiosity module, entropy-target
    controller; extrinsic coefficient 0.5. *)
Definition full_agent : @Agent float string nat := {|
  predict_state_spec :=
    PNamed "AgentState" [("rl", PData "actor_state"); ("icm", PUnit)];
  train_state_spec :=
    PNamed "AgentState" [("rl", PData "actor_state"); ("icm", PData "feature")];
  _rl_algorithm := policy;
  _entropy_target_algorithm := Some entropy_target;
  _encoding_network := Some encoder;
  _intrinsic_reward_coef := py_float 6 2;
  _extrinsic_reward_coef := py_float 7 0.5;
  _icm := Some curiosity
|}.

Definition w0 : @world float string nat :=
  {| next_id := 10; summaries := []; calls := []; hidden := 0 |}.

Definition time_step : value :=
  PNamed "ActionTimeStep"
         [("step_type", PData "MID");
          ("reward", tf_tensor 8 5);
          ("observation", PData "pixels");
          ("prev_action", PData "right")].

Definition state : value :=
  PNamed "AgentState" [("rl", PData "memory"); ("icm", PData "feature")].

(** The info of a step collected live, with its intrinsic reward. *)
Definition live_info : value :=
  PNamed "AgentInfo"
         [("rl", PData "actor_critic_info");
          ("icm", PNamed "ICMInfo" [("reward", tf_tensor 3 0.2);
                                    ("loss", PData "icm_losses")]);
          ("entropy_target", PData "entropy_target_info")].

(** The info of a step whose intrinsic reward was not computed. *)
Definition replay_info : value :=
  PNamed "AgentInfo"
         [("rl", PData "actor_critic_info");
          ("icm", PNamed "ICMInfo" [("reward", PUnit);
                                    ("loss", PData "icm_losses")]);
          ("entropy_target", PData "entropy_target_info")].

Definition training_info (info : value) : value :=
  PNamed "TrainingInfo"
         [("action", PData "left"); ("reward", tf_tensor 8 5); ("info", info)].

Definition experience : value :=
  PNamed "Experience"
         [("observation", PData "pixels"); ("reward", py_float 9 5);
          ("info", live_info)].

(** The info of a step of the plain agent. *)
Definition plain_info : value :=
  PNamed "AgentInfo"
         [("rl", PData "actor_critic_info"); ("icm", PUnit);
          ("entropy_target", PUnit)].

(** The modules as the grouping by optimizer sees them: the curiosity
    module brings an optimizer of its own, the others do not. *)
Definition encoder_module : @TfModule float string :=
  {| optimizer := None;
     trainable_variables := [PData "conv/kernel"; PData "conv/bias"] |}.

Definition policy_module : @TfModule float string :=
  {| optimizer := None; trainable_variables := [PData "actor/kernel"] |}.

Definition curiosity_module : @TfModule float string :=
  {| optimizer := Some (PData "adam_icm");
     trainable_variables := [PData "icm/kernel"] |}.


(** A policy whose [rollout] raises. *)
Definition failing_policy : @RLAlgorithm float string nat := {|
  rl_train_state_spec := PData "actor_state";
  rl_predict_state_spec := PData "actor_state";
  rl_predict := rl_predict policy;
  rl_rollout := fun _ _ h => (Err (Failure "nan in logits"), S h);
  rl_calc_loss := rl_calc_loss policy;
  rl_preprocess_experience := rl_preprocess_experience policy
|}.

(** The full agent around the failing policy. *)
Definition failing_agent : @Agent float string nat := {|
  predict_state_spec := predict_state_spec full_agent;
  train_state_spec := train_state_spec full_agent;
  _rl_algorithm := failing_policy;
  _entropy_target_algorithm := Some entropy_target;
  _encoding_network := Some encoder;
  _intrinsic_reward_coef := py_float 6 2;
  _extrinsic_reward_coef := py_float 7 0.5;
  _icm := Some curiosity
|}.

(** An experience stored without its intrinsic reward. *)
Definition replay_experience : value :=
  PNamed "Experience"
         [("observation", PData "pixels"); ("reward", py_float 9 5);
          ("info", replay_info)].

End Scenario.

(** * Facts about the object model *)

Section ObjectFacts.
Context {R D : Type}.

Abbreviation value := (pyval R D).

Lemma assoc_set_field_same name x (fs : list (string * value)) v :
  assoc name fs = Some v -> assoc name (set_field name x fs) = Some x.
Proof.
  induction fs as [|[k u] rest IH]; simpl; [discriminate|].
  destruct (String.eqb name k) eqn:E; simpl; rewrite E; auto.
Qed.

Lemma assoc_set_field_other name other x (fs : list (string * value)) :
  other <> name -> assoc other (set_field name x fs) = assoc other fs.
Proof.
  intros Hne. induction fs as [|[k u] rest IH]; simpl; [reflexivity|].
  destruct (String.eqb name k) eqn:E; simpl.
  - apply String.eqb_eq in E. subst k.
    apply String.eqb_neq in Hne. rewrite Hne. reflexivity.
  - rewrite IH. reflexivity.
Qed.

Lemma set_field_names name x (fs : list (string * value)) :
  map fst (set_field name x fs) = map fst fs.
Proof.
  induction fs as [|[k u] rest IH]; simpl; [reflexivity|].
  destruct (String.eqb name k); simpl; congruence.
Qed.

(** Reading back the field that [_replace] wrote. *)
Lemma getattr_replace_same (v v' : value) name x :
  py_replace v name x = Ok v' -> py_getattr v' name = Ok x.
Proof.
  destruct v as [| | |cls fs]; simpl; try discriminate.
  destruct (assoc name fs) eqn:E; [|discriminate].
  intros [= <-]. simpl. rewrite (assoc_set_field_same _ _ _ E). reflexivity.
Qed.

(** [_replace] leaves every other field as it was. *)
Lemma getattr_replace_other (v v' : value) name other x :
  py_replace v name x = Ok v' -> other <> name ->
  py_getattr v' other = py_getattr v other.
Proof.
  destruct v as [| | |cls fs]; simpl; try discriminate.
  destruct (assoc name fs) eqn:E; [|discriminate].
  intros [= <-] Hne. simpl. rewrite assoc_set_field_other by assumption.
  reflexivity.
Qed.

Lemma field_names_replace (v v' : value) name x :
  py_replace v name x = Ok v' -> field_names v' = field_names v.
Proof.
  destruct v as [| | |cls fs]; simpl; try discriminate.
  destruct (assoc name fs); [|discriminate].
  intros [= <-]. simpl. apply set_field_names.
Qed.

(** [_replace] succeeds exactly on the fields that can be read. *)
Lemma replace_defined (v : value) name y x :
  py_getattr v name = Ok y -> exists v', py_replace v name x = Ok v'.
Proof.
  destruct v as [| | |cls fs]; simpl; try discriminate.
  destruct (assoc name fs); [|discriminate]. eauto.
Qed.

End ObjectFacts.

(** * Facts about the monad *)

Section MonadFacts.
Context {R D H : Type} `{Numeric R}.

Abbreviation value := (pyval R D).
Abbreviation M := (@M R D H).
Abbreviation world := (@world R D H).
Abbreviation call := (@call R D).

Lemma logs_ret {A} (P : call -> Prop) (a : A) : logs P (@ret R D H A a).
Proof. intros w. exists []. simpl. rewrite app_nil_r. auto. Qed.

Lemma logs_lift {A} (P : call -> Prop) (r : result A) :
  logs P (@lift R D H A r).
Proof. intros w. exists []. simpl. rewrite app_nil_r. auto. Qed.

Lemma logs_invoke {A} (P : call -> Prop) (c : call) (f : H -> result A * H) :
  P c -> logs P (invoke c f).
Proof.
  intros Hc w. exists [c]. unfold invoke.
  destruct (f (hidden w)); simpl. auto.
Qed.

Lemma logs_bind {A B} P (m : M A) (k : A -> M B) :
  logs P m -> (forall a, logs P (k a)) -> logs P (bind m k).
Proof.
  intros Hm Hk w. unfold bind.
  destruct (Hm w) as (n1 & E1 & F1).
  destruct (m w) as [[a|e] w1]; simpl in *.
  - destruct (Hk a w1) as (n2 & E2 & F2).
    exists (n1 ++ n2). rewrite E2, E1, app_assoc.
    split; [reflexivity | apply Forall_app; auto].
  - exists n1. auto.
Qed.

Lemma silent_ret {A} (a : A) : silent (@ret R D H A a).
Proof. intros w. simpl. auto. Qed.

Lemma silent_lift {A} (r : result A) : silent (@lift R D H A r).
Proof. intros w. simpl. auto. Qed.

Lemma silent_invoke {A} (c : call) (f : H -> result A * H) :
  silent (invoke c f).
Proof. intros w. unfold invoke. destruct (f (hidden w)); simpl. auto. Qed.

Lemma silent_bind {A B} (m : M A) (k : A -> M B) :
  silent m -> (forall a, silent (k a)) -> silent (bind m k).
Proof.
  intros Hm Hk w. unfold bind.
  destruct (Hm w) as (E1 & E2).
  destruct (m w) as [[a|e] w1]; simpl in *; [|auto].
  destruct (Hk a w1) as (E3 & E4). split; congruence.
Qed.

Lemma keeps_hidden_ret {A} (a : A) : keeps_hidden (@ret R D H A a).
Proof. intros w. reflexivity. Qed.

Lemma keeps_hidden_lift {A} (r : result A) : keeps_hidden (@lift R D H A r).
Proof. intros w. reflexivity. Qed.

Lemma keeps_hidden_invoke {A} (c : call) (f : H -> result A * H) :
  read_only f -> keeps_hidden (invoke c f).
Proof.
  intros Hf w. unfold invoke. specialize (Hf (hidden w)).
  destruct (f (hidden w)); simpl in *. assumption.
Qed.

Lemma keeps_hidden_bind {A B} (m : M A) (k : A -> M B) :
  keeps_hidden m -> (forall a, keeps_hidden (k a)) -> keeps_hidden (bind m k).
Proof.
  intros Hm Hk w. unfold bind. specialize (Hm w).
  destruct (m w) as [[a|e] w1]; simpl in *; [|assumption].
  rewrite Hk. assumption.
Qed.

Lemma hidden_only_ret {A} (a : A) : hidden_only (@ret R D H A a).
Proof. intros w1 w2 E. simpl. auto. Qed.

Lemma hidden_only_lift {A} (r : result A) : hidden_only (@lift R D H A r).
Proof. intros w1 w2 E. simpl. auto. Qed.

Lemma hidden_only_invoke {A} (c : call) (f : H -> result A * H) :
  hidden_only (invoke c f).
Proof.
  intros w1 w2 E. unfold invoke. rewrite E.
  destruct (f (hidden w2)); simpl. auto.
Qed.

Lemma hidden_only_bind {A B} (m : M A) (k : A -> M B) :
  hidden_only m -> (forall a, hidden_only (k a)) -> hidden_only (bind m k).
Proof.
  intros Hm Hk w1 w2 E. unfold bind.
  destruct (Hm w1 w2 E) as (E1 & E2).
  destruct (m w1) as [r1 w1'], (m w2) as [r2 w2']; simpl in *. subst r2.
  destruct r1 as [a|e]; [apply Hk; assumption | simpl; auto].
Qed.

Lemma logs_py_arith (P : call -> Prop) f (a b : value) :
  logs P (@py_arith R D H f a b).
Proof.
  intros w. exists []. rewrite app_nil_r.
  destruct a, b; simpl; auto.
Qed.

Lemma logs_add_reward_summary (P : call -> Prop) name (v : value) :
  logs P (@add_reward_summary R D H name v).
Proof. intros w. exists []. simpl. rewrite app_nil_r. auto. Qed.

(** A computation that logs no call at all. *)
Lemma logs_nothing {A} (m : M A) :
  logs (fun _ => False) m -> forall w, calls (snd (m w)) = calls w.
Proof.
  intros Hm w. destruct (Hm w) as (new & E & F).
  destruct new as [|c new]; [rewrite app_nil_r in E; exact E|].
  inversion F; contradiction.
Qed.

End MonadFacts.

Create HintDb agent.
#[global] Hint Resolve logs_ret logs_lift logs_invoke logs_bind
  logs_py_arith logs_add_reward_summary : agent.
#[global] Hint Resolve silent_ret silent_lift silent_invoke silent_bind : agent.
#[global] Hint Resolve keeps_hidden_ret keeps_hidden_lift keeps_hidden_invoke
  keeps_hidden_bind : agent.
#[global] Hint Resolve hidden_only_ret hidden_only_lift hidden_only_invoke
  hidden_only_bind : agent.

(** Symbolic execution: rewrite with what is known about the next lookup or
    collaborator answer, then compute. *)
Ltac exec_step :=
  match goal with
  | E : ?l = Ok _ |- context [?l] => rewrite E
  | E : ?l = (Ok _, _) |- context [?l] => rewrite E
  | E : ?l = None |- context [?l] => rewrite E
  | E : ?l = Some _ |- context [?l] => rewrite E
  end.

Ltac exec := repeat (cbn; exec_step); cbn.

(** * Predict *)

Section PredictFacts.
Context {R D H : Type} `{Numeric R}.

Abbreviation value := (pyval R D).
Abbreviation Agent := (@Agent R D H).
Abbreviation world := (@world R D H).
Abbreviation call := (@call R D).

Lemma _encode_logs (self : Agent) time_step :
  logs inference_call (_encode self time_step).
Proof.
  unfold _encode, getattr.
  destruct (_encoding_network self); auto 10 with agent.
  apply logs_bind; auto with agent. intros a.
  apply logs_bind; auto with agent. apply logs_invoke. exact I.
Qed.

Lemma _encode_silent (self : Agent) time_step :
  silent (_encode self time_step).
Proof.
  unfold _encode, getattr. destruct (_encoding_network self); auto 10 with agent.
Qed.

Lemma _encode_keeps_hidden (self : Agent) time_step :
  encoder_read_only self -> keeps_hidden (_encode self time_step).
Proof.
  intros Hp. unfold _encode, getattr.
  destruct (_encoding_network self) as [net|] eqn:E; auto 10 with agent.
Qed.

Lemma _encode_hidden_only (self : Agent) time_step :
  hidden_only (_encode self time_step).
Proof.
  unfold _encode, getattr.
  destruct (_encoding_network self); auto 10 with agent.
Qed.

Lemma predict_logs (self : Agent) time_step state :
  logs inference_call (predict self time_step state).
Proof.
  unfold predict, getattr, _replace.
  repeat (first [ apply _encode_logs
                | apply logs_ret
                | apply logs_lift
                | apply logs_invoke; exact I
                | apply logs_bind; [| intros ? ] ]).
Qed.

Lemma predict_silent (self : Agent) time_step state :
  silent (predict self time_step state).
Proof.
  unfold predict, getattr, _replace.
  repeat (first [ apply _encode_silent
                | apply silent_ret
                | apply silent_lift
                | apply silent_invoke
                | apply silent_bind; [| intros ? ] ]).
Qed.

Lemma predict_keeps_hidden (self : Agent) time_step state :
  encoder_read_only self -> policy_predict_read_only self ->
  keeps_hidden (predict self time_step state).
Proof.
  intros He Hp. unfold predict, getattr, _replace.
  repeat (first [ apply _encode_keeps_hidden; assumption
                | apply keeps_hidden_ret
                | apply keeps_hidden_lift
                | apply keeps_hidden_invoke; apply Hp
                | apply keeps_hidden_bind; [| intros ? ] ]).
Qed.

Lemma predict_hidden_only (self : Agent) time_step state :
  hidden_only (predict self time_step state).
Proof.
  unfold predict, getattr, _replace.
  repeat (first [ apply _encode_hidden_only
                | apply hidden_only_ret
                | apply hidden_only_lift
                | apply hidden_only_invoke
                | apply hidden_only_bind; [| intros ? ] ]).
Qed.

(** What [predict] returns, given what the encoder and the policy answer. *)
Lemma predict_exec (self : Agent) (time_step state : value) w
      observation w1 time_step1 state_rl rl_step h2 rl_state action :
  _encode self time_step w = (Ok observation, w1) ->
  py_replace time_step "observation" observation = Ok time_step1 ->
  py_getattr state "rl" = Ok state_rl ->
  rl_predict (_rl_algorithm self) time_step1 state_rl (hidden w1)
  = (Ok rl_step, h2) ->
  py_getattr rl_step "state" = Ok rl_state ->
  py_getattr rl_step "action" = Ok action ->
  predict self time_step state w =
  (Ok (PolicyStep [("action", action);
                   ("state", AgentState [("rl", rl_state)]);
                   ("info", PUnit)]),
   {| next_id := next_id w1; summaries := summaries w1;
      calls := calls w1 ++ [RlPredict time_step1 state_rl]; hidden := h2 |}).
Proof.
  intros He Hr Hs Hp Hst Ha.
  unfold predict, bind. rewrite He.
  unfold _replace, getattr, lift, invoke. rewrite Hr, Hs, Hp, Hst. cbn.
  rewrite Ha. reflexivity.
Qed.

(** C9.  [predict] touches nothing of its own: it creates no object and
    emits no summary, and the only collaborators it calls are the encoding
    network and the policy's [predict], never the curiosity module or the
    entropy-target controller.  When those two are inference only, that is,
    leave the hidden state as they find it, so does [predict], and a second
    call of [predict] on the same time step and state yields the same
    outcome as the first (same action, same state). *)
Theorem predict_idempotent (self : Agent) (time_step state : value) (w : world) :
  (exists new,
      calls (snd (predict self time_step state w)) = calls w ++ new /\
      Forall inference_call new) /\
  next_id (snd (predict self time_step state w)) = next_id w /\
  summaries (snd (predict self time_step state w)) = summaries w /\
  (encoder_read_only self -> policy_predict_read_only self ->
   hidden (snd (predict self time_step state w)) = hidden w /\
   fst (predict self time_step state (snd (predict self time_step state w)))
   = fst (predict self time_step state w)).
Proof.
  split; [apply predict_logs|].
  split; [apply predict_silent|].
  split; [apply predict_silent|].
  intros He Hp.
  pose proof (predict_keeps_hidden time_step state He Hp w) as Hk.
  split; [exact Hk|].
  apply (predict_hidden_only self time_step state _ _ Hk).
Qed.

(** C10.  The step returned by [predict] has [()] as its info; its state
    is an [AgentState] whose [rl] is the state the policy's [predict]
    returned and whose [icm] is the default [()], whatever the input state
    held there. *)
Theorem predict_drops_icm_state (self : Agent) (time_step state : value)
        (w w1 : world) observation time_step1 state_rl rl_step h2
        rl_state action :
  _encode self time_step w = (Ok observation, w1) ->
  py_replace time_step "observation" observation = Ok time_step1 ->
  py_getattr state "rl" = Ok state_rl ->
  rl_predict (_rl_algorithm self) time_step1 state_rl (hidden w1)
  = (Ok rl_step, h2) ->
  py_getattr rl_step "state" = Ok rl_state ->
  py_getattr rl_step "action" = Ok action ->
  exists step new_state,
    fst (predict self time_step state w) = Ok step /\
    py_getattr step "action" = Ok action /\
    py_getattr step "info" = Ok PUnit /\
    py_getattr step "state" = Ok new_state /\
    new_state = PNamed "AgentState" [("rl", rl_state); ("icm", PUnit)].
Proof.
  intros He Hr Hs Hp Hst Ha.
  erewrite predict_exec; [| eassumption ..].
  eexists. eexists. simpl. repeat split; reflexivity.
Qed.

End PredictFacts.

(** * Rollout *)

Section RolloutFacts.
Context {R D H : Type} `{Numeric R}.

Abbreviation value := (pyval R D).
Abbreviation Agent := (@Agent R D H).
Abbreviation world := (@world R D H).
Abbreviation call := (@call R D).

Lemma _encode_exec (self : Agent) time_step (w : world) cs observation h1 :
  encode_stage self time_step (hidden w) cs observation h1 ->
  _encode self time_step w =
  (Ok observation,
   {| next_id := next_id w; summaries := summaries w;
      calls := calls w ++ cs; hidden := h1 |}).
Proof.
  intros Hs. unfold _encode, bind, getattr, lift, invoke, ret.
  inversion Hs as [obs Hn Ho | net obs out ns h' Hn Ho Hc]; subst;
    rewrite Ho, Hn.
  - rewrite app_nil_r. destruct w; reflexivity.
  - rewrite Hc. reflexivity.
Qed.

(** C3.  One step of [rollout]: the observation is encoded first; then the
    curiosity module, if there is one, takes its training step on the
    encoded observation and the previous action, with
    [calc_intrinsic_reward] set to the negation of [with_experience]; then
    the policy rolls out on the time step carrying the encoded
    observation; then the entropy-target controller, if enabled, takes its
    training step on the policy's action.  The step returned carries the
    policy's action, a state whose [rl] and [icm] are the states the policy
    and the curiosity module returned, and an info whose fields are the
    infos of the three sub-steps. *)
Theorem rollout_order (self : Agent) (time_step state : value)
        (with_experience : bool) (w : world)
        c_enc observation h1 c_icm icm_info icm_state h2
        time_step1 state_rl rl_step h3 rl_state rl_info action
        c_et et_info h4 :
  encode_stage self time_step (hidden w) c_enc observation h1 ->
  icm_stage self time_step state observation with_experience h1
            c_icm icm_info icm_state h2 ->
  py_replace time_step "observation" observation = Ok time_step1 ->
  py_getattr state "rl" = Ok state_rl ->
  rl_rollout (_rl_algorithm self) time_step1 state_rl h2 = (Ok rl_step, h3) ->
  py_getattr rl_step "state" = Ok rl_state ->
  py_getattr rl_step "info" = Ok rl_info ->
  py_getattr rl_step "action" = Ok action ->
  et_stage self action h3 c_et et_info h4 ->
  rollout self time_step state with_experience w =
  (Ok (PNamed "PolicyStep"
         [("action", action);
          ("state", PNamed "AgentState"
                      [("rl", rl_state); ("icm", icm_state)]);
          ("info", PNamed "AgentInfo"
                     [("rl", rl_info); ("icm", icm_info);
                      ("entropy_target", et_info)])]),
   {| next_id := next_id w; summaries := summaries w;
      calls := calls w ++ c_enc ++ c_icm
                     ++ [RlRollout time_step1 state_rl] ++ c_et;
      hidden := h4 |}).
Proof.
  intros Henc Hicm Hr Hs Hrl Hst Hin Ha Het.
  unfold rollout. unfold bind at 1. rewrite (_encode_exec _ Henc).
  unfold bind, _replace, getattr, lift, invoke, ret.
  inversion Hicm; subst; inversion Het; subst; exec;
    rewrite ?app_nil_r, <- ?app_assoc; reflexivity.
Qed.

End RolloutFacts.

(** * The training reward *)

Section RewardFacts.
Context {R D H : Type} `{Numeric R}.

Abbreviation value := (pyval R D).
Abbreviation Agent := (@Agent R D H).
Abbreviation world := (@world R D H).

Ltac split_match :=
  match goal with
  | |- context [match ?x with _ => _ end] => destruct x eqn:?
  | E : context [match ?x with _ => _ end] |- _ => destruct x eqn:?
  end.

(** With coefficient 1 and no curiosity module the method hands back its
    argument and touches nothing. *)
Lemma calc_training_reward_identity (self : Agent) (external_reward info : value)
      (w : world) :
  py_ne_one (_extrinsic_reward_coef self) = false ->
  _icm self = None ->
  calc_training_reward self external_reward info w = (Ok external_reward, w).
Proof.
  intros Hc Hi. unfold calc_training_reward. rewrite Hc, Hi.
  unfold bind, ret, same_object. cbn.
  destruct external_reward; cbn; try reflexivity.
  rewrite Nat.eqb_refl. reflexivity.
Qed.

(** The summaries of a successful call: the intrinsic reward if there is a
    curiosity module, then the combined reward if the result is not the
    object that came in. *)
Lemma calc_training_reward_summaries (self : Agent) (external_reward info : value)
      (w w' : world) reward :
  calc_training_reward self external_reward info w = (Ok reward, w') ->
  summaries w' =
  summaries w ++ icm_summary self info
            ++ (if same_object reward external_reward then []
                else [("reward/overall", reward)]).
Proof.
  unfold calc_training_reward, icm_summary, same_object, bind, getattr, lift,
    py_mul, py_add, py_arith, alloc, add_reward_summary, ret.
  intros E.
  repeat (split_match; cbn -[Nat.eqb] in *; try discriminate);
    repeat match goal with
           | E : (_, _) = (_, _) |- _ =>
               injection E as ? ?; subst; cbn -[Nat.eqb] in *
           end;
    try discriminate;
    repeat match goal with
           | E : ?x = _ |- context [?x] => rewrite E
           end;
    try match goal with
        | Ea : ?b = ?v, Eb : negb ?b = ?v |- _ =>
            rewrite Ea in Eb; destruct v; discriminate
        end;
    cbn; rewrite ?app_nil_r, <- ?app_assoc; try reflexivity; try congruence.
Qed.

(** A successful call either performed no arithmetic and returns its
    argument, or returns a number created during the call. *)
Lemma calc_training_reward_cases (self : Agent)
      (external_reward info : value) (w w' : world) reward :
  calc_training_reward self external_reward info w = (Ok reward, w') ->
  (py_ne_one (_extrinsic_reward_coef self) = false /\ _icm self = None /\
   reward = external_reward) \/
  ((py_ne_one (_extrinsic_reward_coef self) = true \/ _icm self <> None) /\
   exists o, py_id reward = Some o /\ next_id w <= o).
Proof.
  unfold calc_training_reward, bind, getattr, lift,
    py_mul, py_add, py_arith, alloc, add_reward_summary, ret.
  intros E.
  repeat (split_match; cbn -[Nat.eqb] in *; try discriminate);
    repeat match goal with
           | E : (_, _) = (_, _) |- _ =>
               injection E as ? ?; subst; cbn -[Nat.eqb] in *
           end;
    try discriminate;
    first [ left; repeat split; congruence
          | right; split;
            [ first [ left; congruence | right; congruence ]
            | eexists; split; [reflexivity | lia] ] ].
Qed.

Lemma id_eqb_eq (a b : option nat) : id_eqb a b = true <-> a = b.
Proof.
  destruct a as [x|], b as [y|]; simpl; split; intros E;
    try discriminate; try reflexivity.
  - apply Nat.eqb_eq in E. congruence.
  - injection E as ->. apply Nat.eqb_refl.
Qed.

(** The result is the object that came in exactly when no arithmetic was
    performed: every number created is a new object. *)
Lemma calc_training_reward_same_object (self : Agent)
      (external_reward info : value) (w w' : world) reward :
  allocated external_reward w ->
  calc_training_reward self external_reward info w = (Ok reward, w') ->
  same_object reward external_reward = true <->
  (py_ne_one (_extrinsic_reward_coef self) = false /\ _icm self = None).
Proof.
  intros Ha E. unfold same_object. rewrite id_eqb_eq.
  destruct (calc_training_reward_cases _ _ _ _ E)
    as [(Hc & Hi & ->) | (Hm & o & Ho & Hle)].
  - tauto.
  - split.
    + intros Eid. unfold allocated in Ha. rewrite <- Eid, Ho in Ha. lia.
    + intros (Hc & Hi). destruct Hm; congruence.
Qed.

(** The composed reward when there is a curiosity module and all operands
    are numbers: [r * ce + ci * i], the product with [ce] left out when [ce]
    is 1. *)
Lemma calc_training_reward_numeric (self : Agent) icm (info info_icm : value)
      kr ro r kc co ce ki io ci kx xo i (w : world) :
  _icm self = Some icm ->
  _extrinsic_reward_coef self = PNum kc co ce ->
  _intrinsic_reward_coef self = PNum ki io ci ->
  py_getattr info "icm" = Ok info_icm ->
  py_getattr info_icm "reward" = Ok (PNum kx xo i) ->
  exists reward,
    fst (calc_training_reward self (PNum kr ro r) info w) = Ok reward /\
    num_payload reward =
    Some (radd (if reqb ce rone then r else rmul r ce) (rmul ci i)).
Proof.
  intros Hi Hce Hci Hinfo Hrew.
  unfold calc_training_reward. rewrite Hi, Hce, Hci.
  unfold bind, getattr, lift, py_mul, py_add, py_arith, alloc,
    add_reward_summary, ret.
  rewrite Hinfo, Hrew. cbn -[Nat.eqb].
  destruct (reqb ce rone); cbn -[Nat.eqb];
    match goal with
    | |- context [negb ?b] => destruct b
    end; cbn; eexists; split; reflexivity.
Qed.

(** C5.  With extrinsic coefficient 1 and no curiosity module,
    [calc_training_reward] returns the very object it was given and emits
    nothing.  In general the combined-reward summary ["reward/overall"] is
    emitted exactly when the returned reward is not the object that came
    in, after the summary of the intrinsic reward if there is one. *)
Theorem calc_training_reward_identity_and_summary (self : Agent)
        (external_reward info : value) (w : world) :
  (py_ne_one (_extrinsic_reward_coef self) = false ->
   _icm self = None ->
   calc_training_reward self external_reward info w = (Ok external_reward, w)) /\
  (forall reward w',
      calc_training_reward self external_reward info w = (Ok reward, w') ->
      summaries w' =
      summaries w ++ icm_summary self info
                ++ (if same_object reward external_reward then []
                    else [("reward/overall", reward)])).
Proof.
  split.
  - apply calc_training_reward_identity.
  - intros reward w'. apply calc_training_reward_summaries.
Qed.

(** C8.  [preprocess_experience] composes the training reward from the
    reward and the info stored in the experience, writes it in the
    experience's reward field, leaving every other field as it was, and
    hands the result to the policy's [preprocess_experience], whose
    outcome it returns. *)
Theorem preprocess_experience_composes (self : Agent) (exp : value)
        (w w1 : world) exp_reward exp_info reward :
  py_getattr exp "reward" = Ok exp_reward ->
  py_getattr exp "info" = Ok exp_info ->
  calc_training_reward self exp_reward exp_info w = (Ok reward, w1) ->
  exists exp',
    py_replace exp "reward" reward = Ok exp' /\
    py_getattr exp' "reward" = Ok reward /\
    field_names exp' = field_names exp /\
    (forall name, name <> "reward" ->
                  py_getattr exp' name = py_getattr exp name) /\
    preprocess_experience self exp w =
    (fst (rl_preprocess_experience (_rl_algorithm self) exp' (hidden w1)),
     {| next_id := next_id w1; summaries := summaries w1;
        calls := calls w1 ++ [RlPreprocessExperience exp'];
        hidden := snd (rl_preprocess_experience (_rl_algorithm self) exp'
                                                (hidden w1)) |}).
Proof.
  intros Hr Hi Hc.
  destruct (replace_defined _ _ reward Hr) as [exp' Hrep].
  exists exp'. split; [assumption|].
  split; [eapply getattr_replace_same; eassumption|].
  split; [eapply field_names_replace; eassumption|].
  split; [intros name Hne; eapply getattr_replace_other; eassumption|].
  unfold preprocess_experience, bind, getattr, _replace, lift, invoke.
  rewrite Hr, Hi, Hc, Hrep.
  destruct (rl_preprocess_experience (_rl_algorithm self) exp' (hidden w1)).
  reflexivity.
Qed.

End RewardFacts.

(** * The loss *)

Section LossFacts.
Context {R D H : Type} `{Numeric R}.

Abbreviation value := (pyval R D).
Abbreviation Agent := (@Agent R D H).
Abbreviation world := (@world R D H).
Abbreviation call := (@call R D).

Lemma left_sum_snoc (xs : list R) (y : R) :
  left_sum (xs ++ [y]) = add_opt (left_sum xs) (Some y).
Proof.
  destruct xs as [|x rest]; simpl; [reflexivity|].
  rewrite fold_left_app. reflexivity.
Qed.

Lemma tensor_sum_snoc (vs : list value) (y : value) :
  tensor_sum (vs ++ [y]) = add_opt (tensor_sum vs) (tensor_payload y).
Proof.
  unfold tensor_sum, tensor_payloads. rewrite flat_map_app. simpl.
  destruct (tensor_payload y) as [b|]; simpl.
  - apply left_sum_snoc.
  - rewrite app_nil_r. destruct (left_sum _); reflexivity.
Qed.

Lemma tensor_sum_one (v : value) : tensor_sum [v] = tensor_payload v.
Proof.
  unfold tensor_sum, tensor_payloads. simpl.
  destruct (tensor_payload v); reflexivity.
Qed.

Lemma _add_exec (x y : value) (w : world) :
  exists l w',
    _add x y w = (Ok l, w') /\
    hidden w' = hidden w /\ calls w' = calls w /\
    summaries w' = summaries w /\ added x y l.
Proof.
  unfold _add, added, py_add, py_arith, alloc, ret.
  destruct y as [|[|] oy b| |]; simpl;
    try (exists x, w; repeat split; auto;
         destruct (tensor_payload x); reflexivity).
  destruct x as [|[|] ox a| |]; simpl;
    eexists; eexists; (split; [reflexivity|]); simpl; repeat split;
    discriminate.
Qed.

Local Arguments _add : simpl never.

Lemma _update_loss_exec (loss_info training_info info : value) name algorithm
      (w : world) cs parts h' cls fs x sx old :
  py_getattr training_info "info" = Ok info ->
  loss_stage info name algorithm (hidden w) cs parts h' ->
  loss_record loss_info x sx (PNamed cls fs) ->
  assoc name fs = Some old ->
  exists li l sl w',
    _update_loss loss_info training_info name algorithm w = (Ok li, w') /\
    loss_record li l sl
                (PNamed cls
                        match parts with
                        | [] => fs
                        | p :: _ => set_field name (part_extra p) fs
                        end) /\
    hidden w' = h' /\ calls w' = calls w ++ cs /\
    summaries w' = summaries w /\
    tensor_payload l
    = fold_left add_opt (map (fun p => tensor_payload (part_loss p)) parts)
                (tensor_payload x) /\
    tensor_payload sl
    = fold_left add_opt
                (map (fun p => tensor_payload (part_scalar_loss p)) parts)
                (tensor_payload sx) /\
    (Forall (fun p => is_tensor (part_loss p) = false) parts -> l = x) /\
    (Forall (fun p => is_tensor (part_scalar_loss p) = false) parts -> sl = sx).
Proof.
  intros Hinfo Hstage (Hx & Hsx & Hex) Hold.
  inversion Hstage as [Hn | calc sub new_li h1 y sy ne Hs Hsub Hc (Hl & Hsl & He)];
    subst.
  - exists loss_info, x, sx, w. simpl. rewrite app_nil_r.
    repeat split; auto.
  - unfold _update_loss, bind, getattr, _replace, lift, invoke, ret.
    rewrite Hinfo, Hsub, Hc, Hx, Hl. cbn.
    match goal with
    | |- context [_add x y ?w0] =>
        destruct (_add_exec x y w0) as (l & w1 & E1 & Eh1 & Ec1 & Es1 & Ep1 & Ei1);
          rewrite E1
    end.
    rewrite Hsx, Hsl.
    destruct (_add_exec sx sy w1) as (sl & w2 & E2 & Eh2 & Ec2 & Es2 & Ep2 & Ei2).
    rewrite E2, Hex, He. cbn. rewrite Hold.
    eexists. exists l, sl, w2. split; [reflexivity|].
    cbn in *. repeat split; try congruence.
    + intros F. inversion F; subst. auto.
    + intros F. inversion F; subst. auto.
Qed.

Lemma tensor_sum_fold (us vs : list value) :
  tensor_sum (us ++ vs)
  = fold_left add_opt (map tensor_payload vs) (tensor_sum us).
Proof.
  revert us. induction vs as [|v vs IH]; intros us; simpl.
  - rewrite app_nil_r. reflexivity.
  - rewrite <- tensor_sum_snoc, <- IH, <- app_assoc. reflexivity.
Qed.

(** What [calc_loss] returns, given the training info left by the reward
    substitution and what the sub-algorithms answer. *)
Lemma calc_loss_exec (self : Agent) (training_info : value) (w w1 : world)
      training_info1 info info_rl rl_training_info rl_loss_info h1
      x sx e c_icm p_icm h2 c_et p_et h3 :
  substitute_reward self training_info w = (Ok training_info1, w1) ->
  py_getattr training_info1 "info" = Ok info ->
  py_getattr info "rl" = Ok info_rl ->
  py_replace training_info1 "info" info_rl = Ok rl_training_info ->
  rl_calc_loss (_rl_algorithm self) rl_training_info (hidden w1)
  = (Ok rl_loss_info, h1) ->
  loss_record rl_loss_info x sx e ->
  loss_stage info "icm" (option_map icm_calc_loss (_icm self)) h1
             c_icm p_icm h2 ->
  loss_stage info "entropy_target"
             (option_map et_calc_loss (_entropy_target_algorithm self)) h2
             c_et p_et h3 ->
  exists li l sl w',
    calc_loss self training_info w = (Ok li, w') /\
    loss_record li l sl
                (PNamed "AgentLossInfo"
                        [("rl", e);
                         ("icm", extra_or_default p_icm);
                         ("entropy_target", extra_or_default p_et)]) /\
    hidden w' = h3 /\
    calls w' = calls w1 ++ RlCalcLoss rl_training_info :: c_icm ++ c_et /\
    summaries w' = summaries w1 /\
    tensor_payload l = tensor_sum (x :: map part_loss (p_icm ++ p_et)) /\
    tensor_payload sl
    = tensor_sum (sx :: map part_scalar_loss (p_icm ++ p_et)) /\
    (Forall (fun p => is_tensor (part_loss p) = false) (p_icm ++ p_et) ->
     l = x) /\
    (Forall (fun p => is_tensor (part_scalar_loss p) = false) (p_icm ++ p_et) ->
     sl = sx).
Proof.
  intros Hsub Hinfo Hrl Hrep Hcalc (Hx & Hsx & He) Hicm Het.
  destruct (replace_defined _ _
              (AgentLossInfo [("rl", e)]) He) as [li0 Hli0].
  assert (Hrec0 : loss_record li0 x sx
                    (PNamed "AgentLossInfo"
                       [("rl", e); ("icm", PUnit); ("entropy_target", PUnit)])).
  { repeat split.
    - erewrite getattr_replace_other by (eassumption || discriminate).
      assumption.
    - erewrite getattr_replace_other by (eassumption || discriminate).
      assumption.
    - eapply getattr_replace_same. eassumption. }
  unfold calc_loss. unfold bind at 1. rewrite Hsub.
  unfold bind at 1 2 3 4 5 6. unfold getattr at 1 2 3, _replace at 1 2, lift, invoke.
  rewrite Hinfo, Hrl, Hrep, Hcalc, He, Hli0.
  match goal with
  | |- context [bind _ _ ?w0] => set (W0 := w0)
  end.
  edestruct _update_loss_exec
    with (w := W0) (loss_info := li0) (training_info := training_info1)
         (name := "icm") (parts := p_icm)
    as (li1 & l1 & sl1 & w2 & E1 & Hrec1 & Eh1 & Ec1 & Es1 & Ep1 & Eq1 & Ei1 & Ej1);
    [exact Hinfo | exact Hicm | exact Hrec0 | reflexivity |].
  unfold bind at 1. rewrite E1.
  rewrite <- Eh1 in Het.
  assert (Hold : exists old,
             assoc "entropy_target"
                   match p_icm with
                   | [] => [("rl", e); ("icm", PUnit); ("entropy_target", PUnit)]
                   | p :: _ =>
                       set_field "icm" (part_extra p)
                         [("rl", e); ("icm", PUnit); ("entropy_target", PUnit)]
                   end = Some old).
  { destruct p_icm; simpl; eauto. }
  destruct Hold as [old Hold].
  edestruct _update_loss_exec
    with (w := w2) (loss_info := li1) (training_info := training_info1)
         (name := "entropy_target") (parts := p_et)
    as (li2 & l2 & sl2 & w3 & E2 & Hrec2 & Eh2 & Ec2 & Es2 & Ep2 & Eq2 & Ei2 & Ej2);
    [exact Hinfo | exact Het | exact Hrec1 | exact Hold |].
  unfold bind at 1. rewrite E2.
  exists li2, l2, sl2, w3. split; [reflexivity|].
  split.
  { destruct Hrec2 as (A & B & C). repeat split; try assumption.
    rewrite C. destruct p_icm, p_et; reflexivity. }
  split; [assumption|].
  split; [rewrite Ec2, Ec1; cbn; rewrite <- !app_assoc; reflexivity|].
  split; [rewrite Es2, Es1; reflexivity|].
  split.
  { rewrite Ep2, Ep1.
    change (x :: map part_loss (p_icm ++ p_et))
      with ([x] ++ map part_loss (p_icm ++ p_et)).
    rewrite tensor_sum_fold, tensor_sum_one, !map_app, !map_map, fold_left_app.
    reflexivity. }
  split.
  { rewrite Eq2, Eq1.
    change (sx :: map part_scalar_loss (p_icm ++ p_et))
      with ([sx] ++ map part_scalar_loss (p_icm ++ p_et)).
    rewrite tensor_sum_fold, tensor_sum_one, !map_app, !map_map, fold_left_app.
    reflexivity. }
  split.
  - intros F. apply Forall_app in F as [F1 F2]. rewrite Ei2, Ei1; auto.
  - intros F. apply Forall_app in F as [F1 F2]. rewrite Ej2, Ej1; auto.
Qed.

(** C1.  The loss and the scalar loss returned by [calc_loss] are the sums
    of the losses of the active sub-algorithms, taken in the order policy,
    curiosity module, entropy-target controller, a loss that is not a
    tensor counting for nothing; when no later loss is a tensor the result
    is the policy's own loss value, and so it is in particular when neither
    a curiosity module nor an entropy-target controller is configured. *)
Theorem calc_loss_sums_losses (self : Agent) (training_info : value)
        (w w1 : world) training_info1 info info_rl rl_training_info
        rl_loss_info h1 x sx e c_icm p_icm h2 c_et p_et h3 :
  substitute_reward self training_info w = (Ok training_info1, w1) ->
  py_getattr training_info1 "info" = Ok info ->
  py_getattr info "rl" = Ok info_rl ->
  py_replace training_info1 "info" info_rl = Ok rl_training_info ->
  rl_calc_loss (_rl_algorithm self) rl_training_info (hidden w1)
  = (Ok rl_loss_info, h1) ->
  loss_record rl_loss_info x sx e ->
  loss_stage info "icm" (option_map icm_calc_loss (_icm self)) h1
             c_icm p_icm h2 ->
  loss_stage info "entropy_target"
             (option_map et_calc_loss (_entropy_target_algorithm self)) h2
             c_et p_et h3 ->
  exists li l sl,
    fst (calc_loss self training_info w) = Ok li /\
    py_getattr li "loss" = Ok l /\
    py_getattr li "scalar_loss" = Ok sl /\
    tensor_payload l = tensor_sum (x :: map part_loss (p_icm ++ p_et)) /\
    tensor_payload sl
    = tensor_sum (sx :: map part_scalar_loss (p_icm ++ p_et)) /\
    (Forall (fun p => is_tensor (part_loss p) = false) (p_icm ++ p_et) ->
     l = x) /\
    (Forall (fun p => is_tensor (part_scalar_loss p) = false) (p_icm ++ p_et) ->
     sl = sx) /\
    (_icm self = None -> _entropy_target_algorithm self = None ->
     l = x /\ sl = sx).
Proof.
  intros Hsub Hinfo Hrl Hrep Hcalc Hrec Hicm Het.
  edestruct calc_loss_exec
    as (li & l & sl & w' & E & (Hl & Hsl & _) & _ & _ & _ & Ep & Eq & Ei & Ej);
    [exact Hsub | exact Hinfo | exact Hrl | exact Hrep | exact Hcalc
     | exact Hrec | exact Hicm | exact Het |].
  exists li, l, sl. rewrite E.
  assert (Hnone : _icm self = None -> _entropy_target_algorithm self = None ->
                  p_icm ++ p_et = []).
  { intros Hi Ht. rewrite Hi in Hicm. rewrite Ht in Het.
    inversion Hicm; inversion Het; subst; try discriminate. reflexivity. }
  repeat (split; [first [reflexivity | assumption]|]).
  intros Hi Ht. split; [apply Ei | apply Ej]; rewrite (Hnone Hi Ht); constructor.
Qed.

(** C6, as the code has it.  The extra of the loss returned by
    [calc_loss] is an [AgentLossInfo], which always has the three fields
    [rl], [icm] and [entropy_target]: [rl] holds the policy's extra, and
    each of the other two holds the extra of its sub-algorithm when that
    one is active and the default [()] when it is not. *)
Theorem calc_loss_extra_fields (self : Agent) (training_info : value)
        (w w1 : world) training_info1 info info_rl rl_training_info
        rl_loss_info h1 x sx e c_icm p_icm h2 c_et p_et h3 :
  substitute_reward self training_info w = (Ok training_info1, w1) ->
  py_getattr training_info1 "info" = Ok info ->
  py_getattr info "rl" = Ok info_rl ->
  py_replace training_info1 "info" info_rl = Ok rl_training_info ->
  rl_calc_loss (_rl_algorithm self) rl_training_info (hidden w1)
  = (Ok rl_loss_info, h1) ->
  loss_record rl_loss_info x sx e ->
  loss_stage info "icm" (option_map icm_calc_loss (_icm self)) h1
             c_icm p_icm h2 ->
  loss_stage info "entropy_target"
             (option_map et_calc_loss (_entropy_target_algorithm self)) h2
             c_et p_et h3 ->
  exists li extra,
    fst (calc_loss self training_info w) = Ok li /\
    py_getattr li "extra" = Ok extra /\
    extra = PNamed "AgentLossInfo"
                   [("rl", e);
                    ("icm", extra_or_default p_icm);
                    ("entropy_target", extra_or_default p_et)] /\
    field_names extra = ["rl"; "icm"; "entropy_target"] /\
    (_icm self = None -> py_getattr extra "icm" = Ok PUnit) /\
    (_entropy_target_algorithm self = None ->
     py_getattr extra "entropy_target" = Ok PUnit).
Proof.
  intros Hsub Hinfo Hrl Hrep Hcalc Hrec Hicm Het.
  edestruct calc_loss_exec
    as (li & l & sl & w' & E & (_ & _ & He) & _);
    [exact Hsub | exact Hinfo | exact Hrl | exact Hrep | exact Hcalc
     | exact Hrec | exact Hicm | exact Het |].
  exists li. eexists. rewrite E. split; [reflexivity|].
  split; [exact He|]. split; [reflexivity|]. split; [reflexivity|].
  split.
  - intros Hi. rewrite Hi in Hicm.
    inversion Hicm; subst; try discriminate. reflexivity.
  - intros Ht. rewrite Ht in Het.
    inversion Het; subst; try discriminate. reflexivity.
Qed.

Ltac logs_auto :=
  repeat (first [ apply logs_ret
                | apply logs_lift
                | apply logs_py_arith
                | apply logs_add_reward_summary
                | apply logs_invoke; exact I
                | apply logs_bind; [| intros ? ]
                | match goal with
                  | |- logs _ (match ?x with _ => _ end) => destruct x
                  | |- logs _ (if ?x then _ else _) => destruct x
                  end ]).

Ltac nothing_computed :=
  exists []; rewrite app_nil_r;
  split; [assumption|]; split; [intros ? ?; discriminate | exact I].

Lemma calc_training_reward_logs P (self : Agent) (external_reward info : value) :
  logs P (calc_training_reward self external_reward info).
Proof.
  unfold calc_training_reward, getattr, py_mul, py_add. logs_auto.
Qed.

Lemma substitute_reward_logs P (self : Agent) (training_info : value) :
  logs P (substitute_reward self training_info).
Proof.
  unfold substitute_reward, icm_reward_is_tensor, getattr, _replace.
  logs_auto; apply calc_training_reward_logs.
Qed.

Lemma _update_loss_logs (loss_info training_info : value) name algorithm :
  logs sub_loss_call
       (@_update_loss R D H _ loss_info training_info name algorithm).
Proof.
  unfold _update_loss, _add, getattr, _replace, py_add. logs_auto.
Qed.

(** The training info that leaves the first statement of [calc_loss]. *)
Lemma substitute_reward_outcome (self : Agent) (training_info : value)
      (w : world) training_info1 :
  fst (substitute_reward self training_info w) = Ok training_info1 ->
  if curiosity_reward_computed self training_info
  then exists reward info reward',
      py_getattr training_info "reward" = Ok reward /\
      py_getattr training_info "info" = Ok info /\
      fst (calc_training_reward self reward info w) = Ok reward' /\
      py_replace training_info "reward" reward' = Ok training_info1
  else training_info1 = training_info.
Proof.
  unfold substitute_reward, icm_reward_is_tensor, curiosity_reward_computed,
    bind, getattr, _replace, lift, ret.
  destruct (_icm self); cbn; [|congruence].
  destruct (py_getattr training_info "info") as [info|]; cbn; [|discriminate].
  destruct (py_getattr info "icm") as [info_icm|]; cbn; [|discriminate].
  destruct (py_getattr info_icm "reward") as [icm_reward|]; cbn; [|discriminate].
  destruct (is_tensor icm_reward); cbn; [|congruence].
  destruct (py_getattr training_info "reward") as [reward|]; cbn; [|discriminate].
  destruct (calc_training_reward self reward info w) as [[reward'|] w1] eqn:E;
    cbn; [|discriminate].
  intros E'. exists reward, info, reward'. rewrite E. auto.
Qed.

(** C4.  The first loss computed by [calc_loss] is the policy's, and every
    later one is a sub-algorithm's; a call that returns has computed it.
    The training info the policy receives carries the reward recomputed by
    [calc_training_reward] when there is a curiosity module and the reward
    in its info is a tensor, and the reward of the incoming training info,
    as it was, in every other case. *)
Theorem calc_loss_reward_substitution (self : Agent) (training_info : value)
        (w : world) :
  exists new,
    calls (snd (calc_loss self training_info w)) = calls w ++ new /\
    (forall li, fst (calc_loss self training_info w) = Ok li -> new <> []) /\
    match new with
    | [] => True
    | RlCalcLoss rl_training_info :: rest =>
        Forall sub_loss_call rest /\
        if curiosity_reward_computed self training_info
        then exists reward info reward',
            py_getattr training_info "reward" = Ok reward /\
            py_getattr training_info "info" = Ok info /\
            fst (calc_training_reward self reward info w) = Ok reward' /\
            py_getattr rl_training_info "reward" = Ok reward'
        else py_getattr rl_training_info "reward"
             = py_getattr training_info "reward"
    | _ :: _ => False
    end.
Proof.
  pose proof (logs_nothing (substitute_reward_logs _ self training_info) w)
    as Hcalls.
  pose proof (@substitute_reward_outcome self training_info w) as Hout.
  destruct (calc_loss self training_info w) as [res w'] eqn:E. cbn [fst snd].
  unfold calc_loss in E. unfold bind at 1 in E.
  destruct (substitute_reward self training_info w) as [[ti1|err] w1];
    cbn [fst snd] in Hcalls, Hout; cbv beta iota in E;
    [| injection E as <- <-; nothing_computed ].
  specialize (Hout ti1 eq_refl).
  unfold bind at 1 in E. unfold getattr at 1 in E. unfold lift at 1 in E.
  destruct (py_getattr ti1 "info") as [info|] eqn:Hinfo; cbv beta iota in E;
    [| injection E as <- <-; nothing_computed ].
  unfold bind at 1 in E. unfold getattr at 1 in E. unfold lift at 1 in E.
  destruct (py_getattr info "rl") as [info_rl|]; cbv beta iota in E;
    [| injection E as <- <-; nothing_computed ].
  unfold bind at 1 in E. unfold _replace at 1 in E. unfold lift at 1 in E.
  destruct (py_replace ti1 "info" info_rl) as [arg|] eqn:Harg; cbv beta iota in E;
    [| injection E as <- <-; nothing_computed ].
  assert (Hreward :
            if curiosity_reward_computed self training_info
            then exists reward info reward',
                py_getattr training_info "reward" = Ok reward /\
                py_getattr training_info "info" = Ok info /\
                fst (calc_training_reward self reward info w) = Ok reward' /\
                py_getattr arg "reward" = Ok reward'
            else py_getattr arg "reward" = py_getattr training_info "reward").
  { assert (Hsame : py_getattr arg "reward" = py_getattr ti1 "reward")
      by (eapply getattr_replace_other; [eassumption | discriminate]).
    destruct (curiosity_reward_computed self training_info).
    - destruct Hout as (reward & info0 & reward' & A & B & C & Drep).
      exists reward, info0, reward'. repeat split; try assumption.
      rewrite Hsame. eapply getattr_replace_same; eassumption.
    - subst ti1. exact Hsame. }
  match type of E with
  | context [bind (invoke _ _) ?K _] =>
      assert (HK : forall a, logs sub_loss_call (K a))
  end.
  { intros a. unfold getattr, _replace.
    repeat (first [ apply logs_ret | apply logs_lift | apply _update_loss_logs
                  | apply logs_bind; [| intros ? ] ]). }
  unfold bind at 1 in E. unfold invoke at 1 in E.
  destruct (rl_calc_loss (_rl_algorithm self) arg (hidden w1)) as [[rl_li|err] h1];
    cbv beta iota in E.
  - match type of E with
    | ?m ?W = _ => destruct (HK rl_li W) as (n & En & Fn)
    end.
    cbv beta in En. rewrite E in En. cbn in En.
    exists (RlCalcLoss arg :: n). rewrite En, Hcalls, <- app_assoc.
    split; [reflexivity|]. split; [intros ? ?; discriminate|].
    split; assumption.
  - injection E as <- <-. cbn.
    exists [RlCalcLoss arg]. rewrite Hcalls.
    split; [reflexivity|]. split; [intros ? ?; discriminate|].
    split; [constructor | assumption].
Qed.

End LossFacts.

(** * Construction and lifetime *)

Section InitFacts.
Context {R D H : Type} `{Numeric R}.

Abbreviation value := (pyval R D).
Abbreviation Agent := (@Agent R D H).
Abbreviation world := (@world R D H).

Lemma lifetime_agent (self : Agent) (w : world) (ops : list operation) :
  fst (lifetime (self, w) ops) = self.
Proof.
  revert w. induction ops as [|op ops IH]; intros w; [reflexivity|].
  unfold lifetime in *. simpl fold_left.
  change (step (self, w) op) with (self, snd (perform self op w)).
  apply IH.
Qed.

(** C7, as the code has it.  After construction [train_state_spec] is an
    [AgentState] whose [rl] is the policy's train state spec and whose
    [icm] is the curiosity module's train state spec when a module was
    given and the default [()] otherwise; [predict_state_spec] is an
    [AgentState] whose [rl] is the policy's predict state spec and whose
    [icm] is always [()].  Neither changes over any sequence of method
    calls. *)
Theorem init_state_specs
        (EntropyTargetAlgorithm_cls :
           value -> bool -> result (@EntropyTargetAlgorithm R D H))
        (action_spec : value)
        (rl_algorithm_cls : value -> bool -> result (@RLAlgorithm R D H))
        encoding_network intrinsic_curiosity_module
        intrinsic_reward_coef extrinsic_reward_coef
        enforce_entropy_target debug_summaries (self : Agent) :
  __init__ EntropyTargetAlgorithm_cls action_spec rl_algorithm_cls
           encoding_network intrinsic_curiosity_module
           intrinsic_reward_coef extrinsic_reward_coef
           enforce_entropy_target debug_summaries = Ok self ->
  exists rl_algorithm,
    rl_algorithm_cls action_spec debug_summaries = Ok rl_algorithm /\
    _rl_algorithm self = rl_algorithm /\
    _icm self = intrinsic_curiosity_module /\
    train_state_spec self =
    PNamed "AgentState"
           [("rl", rl_train_state_spec rl_algorithm);
            ("icm", match intrinsic_curiosity_module with
                    | Some icm => icm_train_state_spec icm
                    | None => PUnit
                    end)] /\
    predict_state_spec self =
    PNamed "AgentState"
           [("rl", rl_predict_state_spec rl_algorithm); ("icm", PUnit)] /\
    forall (ops : list operation) (w : world),
      train_state_spec (fst (lifetime (self, w) ops)) = train_state_spec self /\
      predict_state_spec (fst (lifetime (self, w) ops))
      = predict_state_spec self.
Proof.
  unfold __init__, try. intros E.
  destruct (rl_algorithm_cls action_spec debug_summaries) as [rl|]; [|discriminate].
  exists rl. split; [reflexivity|].
  assert (Hl : forall ops w, fst (lifetime (self, w) ops) = self)
    by (intros; apply lifetime_agent).
  destruct intrinsic_curiosity_module as [icm|]; cbn in E;
    destruct enforce_entropy_target; cbn in E;
    try destruct (EntropyTargetAlgorithm_cls action_spec debug_summaries);
    try discriminate; injection E as <-; cbn;
    repeat split; try reflexivity; rewrite Hl; reflexivity.
Qed.

End InitFacts.

(** * The composed reward *)

(** C2.  With a curiosity module whose info carries the intrinsic reward
    [i], the training reward composed from the external reward [r] is
    [r * ce + ci * i], where the product with the extrinsic coefficient
    [ce] is left out when [ce] is 1.  On binary64 floats: without a
    curiosity module and with coefficient 1.0 the reward 5.0 comes back as
    it is, and with intrinsic reward 0.2 and intrinsic coefficient 2.0 the
    result is 5.4. *)
Theorem calc_training_reward_composition :
  (forall (R D H : Type) (N : Numeric R) (self : @Agent R D H) icm
          (info info_icm : pyval R D) kr ro r kc co ce ki io ci kx xo i
          (w : @world R D H),
      _icm self = Some icm ->
      _extrinsic_reward_coef self = PNum kc co ce ->
      _intrinsic_reward_coef self = PNum ki io ci ->
      py_getattr info "icm" = Ok info_icm ->
      py_getattr info_icm "reward" = Ok (PNum kx xo i) ->
      exists reward,
        fst (calc_training_reward self (PNum kr ro r) info w) = Ok reward /\
        num_payload reward =
        Some (radd (if reqb ce rone then r else rmul r ce) (rmul ci i))) /\
  calc_training_reward Scenario.plain_agent (Scenario.py_float 9 5)
                       Scenario.plain_info Scenario.w0
  = (Ok (Scenario.py_float 9 5), Scenario.w0) /\
  (exists reward,
      fst (calc_training_reward Scenario.curious_agent (Scenario.py_float 9 5)
                                Scenario.live_info Scenario.w0) = Ok reward /\
      num_payload reward = Some 5.4%float).
Proof.
  split; [|split].
  - intros R D H N self icm info info_icm kr ro r kc co ce ki io ci kx xo i w.
    apply calc_training_reward_numeric.
  - reflexivity.
  - eexists. split; reflexivity.
Qed.

(** * The grouping of modules by optimizer *)

Section GroupingFacts.
Context {R D : Type}.

Abbreviation value := (pyval R D).
Abbreviation TfModule := (@TfModule R D).









(** Adding one algorithm to a grouping gives the grouping of one algorithm
    more. *)
Lemma _add_algorithm_grouped optimizer0 encoding_network
      (algorithms : list TfModule) (a : TfModule) :
  _add_algorithm (Some a)
                 (fst (grouped optimizer0 encoding_network algorithms))
                 (snd (grouped optimizer0 encoding_network algorithms))
  = Some (grouped optimizer0 encoding_network (algorithms ++ [a])).
Proof.
  unfold _add_algorithm, grouped, has_optimizer. simpl.
  rewrite !filter_app. simpl.
  destruct (optimizer a) as [o|] eqn:E; simpl.
  - rewrite !map_app, !app_nil_r. simpl. rewrite E. reflexivity.
  - rewrite !app_nil_r, map_app. reflexivity.
Qed.

Lemma init_optimizers_grouped optimizer0 encoding_network
      (rl_algorithm : TfModule) intrinsic_curiosity_module
      entropy_target_algorithm :
  init_optimizers optimizer0 encoding_network rl_algorithm
                  intrinsic_curiosity_module entropy_target_algorithm
  = Some (grouped optimizer0 encoding_network
                  (rl_algorithm
                     :: present [intrinsic_curiosity_module;
                                 entropy_target_algorithm])).
Proof.
  unfold init_optimizers. cbv zeta.
  pose proof (_add_algorithm_grouped optimizer0 encoding_network []
                                     rl_algorithm) as E1.
  cbn [grouped fst snd filter map] in E1. rewrite E1. cbn [and_then app].
  destruct intrinsic_curiosity_module as [icm|];
    [rewrite _add_algorithm_grouped|]; cbn [and_then app];
    (destruct entropy_target_algorithm as [et|];
     [rewrite _add_algorithm_grouped|]); reflexivity.
Qed.

(** X1.  The optimizers and module sets [__init__] builds: the first
    optimizer is the constructor's own and trains the encoding network and
    every algorithm that brings no optimizer; each algorithm that brings
    one gets it appended, with a module set that holds this algorithm
    alone; the order is policy, curiosity module, entropy-target
    controller. *)
Theorem init_optimizers_partition optimizer0 encoding_network
        (rl_algorithm : TfModule) intrinsic_curiosity_module
        entropy_target_algorithm :
  init_optimizers optimizer0 encoding_network rl_algorithm
                  intrinsic_curiosity_module entropy_target_algorithm
  = Some (grouped optimizer0 encoding_network
                  (rl_algorithm
                     :: present [intrinsic_curiosity_module;
                                 entropy_target_algorithm])).
Proof. apply init_optimizers_grouped. Qed.

(** X2.  [_add_algorithm] keeps optimizers and module sets paired: from
    lists of equal length that are not empty it never fails, the lists it
    returns have equal length again, and the optimizers that were there
    keep their places. *)
Theorem _add_algorithm_keeps_pairing (algorithm : option TfModule)
        (optimizers : list (option value))
        (module_sets : list (list (option TfModule))) :
  List.length optimizers = List.length module_sets ->
  module_sets <> [] ->
  exists optimizers' module_sets',
    _add_algorithm algorithm optimizers module_sets
    = Some (optimizers', module_sets') /\
    List.length optimizers' = List.length module_sets' /\
    module_sets' <> [] /\
    firstn (List.length optimizers) optimizers' = optimizers.
Proof.
  intros Hlen Hne. unfold _add_algorithm.
  destruct algorithm as [a|].
  - destruct (optimizer a) as [o|].
    + eexists. eexists. split; [reflexivity|].
      split; [rewrite !length_app, Hlen; reflexivity|].
      split; [destruct module_sets; discriminate|].
      rewrite firstn_app, Nat.sub_diag, firstn_all. simpl.
      apply app_nil_r.
    + destruct module_sets as [|first rest]; [contradiction|].
      eexists. eexists. split; [reflexivity|].
      simpl in *. split; [assumption|]. split; [discriminate|].
      apply firstn_all.
  - eexists. eexists. split; [reflexivity|].
    split; [assumption|]. split; [assumption|]. apply firstn_all.
Qed.


End GroupingFacts.

(** * More about the steps *)

Ltac case_split :=
  match goal with
  | E : context [match ?x with _ => _ end] |- _ => destruct x eqn:?
  end.

Ltac tidy :=
  repeat match goal with
         | E : (_, _) = (_, _) |- _ => injection E as ? ?
         | E : Ok _ = Ok _ |- _ => injection E as ?
         | E : Some _ = Some _ |- _ => injection E as ?
         | E : Err _ = Ok _ |- _ => discriminate E
         | E : Ok _ = Err _ |- _ => discriminate E
         end;
  subst.

Ltac log_leaf :=
  cbn; rewrite <- ?app_assoc;
  first [ exists []; split; [symmetry; apply app_nil_r | constructor]
        | eexists; split;
          [ reflexivity
          | repeat constructor; cbn; auto ] ].

Ltac goal_split :=
  match goal with
  | |- context [match ?x with _ => _ end] =>
      lazymatch x with
      | context [match _ with _ => _ end] => fail
      | _ => destruct x eqn:?
      end
  end.

Section StepFacts.
Context {R D H : Type} `{Numeric R}.

Abbreviation value := (pyval R D).
Abbreviation Agent := (@Agent R D H).
Abbreviation world := (@world R D H).
Abbreviation call := (@call R D).

Lemma set_field_same name (x : value) (fs : list (string * value)) :
  assoc name fs = Some x -> set_field name x fs = fs.
Proof.
  induction fs as [|[k v] rest IH]; simpl; [reflexivity|].
  destruct (String.eqb name k) eqn:E.
  - intros [= ->]. reflexivity.
  - intros Ha. rewrite (IH Ha). reflexivity.
Qed.

(** Writing back what was read gives the tuple back. *)
Lemma replace_getattr_id (v x : value) name :
  py_getattr v name = Ok x -> py_replace v name x = Ok v.
Proof.
  destruct v as [| | |cls fs]; simpl; try discriminate.
  destruct (assoc name fs) as [y|] eqn:E; [|discriminate].
  intros [= ->]. rewrite (set_field_same _ _ E). reflexivity.
Qed.

(** X4.  Whatever the collaborators return, a step that [rollout] returns
    is a [PolicyStep] whose state is an [AgentState] with exactly the
    fields [rl] and [icm] and whose info is an [AgentInfo] with exactly the
    fields [rl], [icm] and [entropy_target]; the fields of a sub-algorithm
    that is not configured hold the default [()]. *)
Theorem rollout_step_shape (self : Agent) (time_step state : value)
        (with_experience : bool) (w w' : world) (step : value) :
  rollout self time_step state with_experience w = (Ok step, w') ->
  exists action rl_state icm_state rl_info icm_info et_info,
    step = PNamed "PolicyStep"
                  [("action", action);
                   ("state", PNamed "AgentState"
                               [("rl", rl_state); ("icm", icm_state)]);
                   ("info", PNamed "AgentInfo"
                              [("rl", rl_info); ("icm", icm_info);
                               ("entropy_target", et_info)])] /\
    (_icm self = None -> icm_state = PUnit /\ icm_info = PUnit) /\
    (_entropy_target_algorithm self = None -> et_info = PUnit).
Proof.
  unfold rollout, _encode, bind, getattr, _replace, lift, invoke, ret.
  intros E.
  repeat (case_split; cbn in *; tidy; try discriminate);
    do 6 eexists; (split; [reflexivity|]);
    split; intros; try discriminate; auto.
Qed.

(** X5.  With no encoding network the collaborators get what came in: in
    [predict] and in [rollout] the policy is called on the time step as it
    was given, the curiosity module on the observation as it was given,
    and no encoder is called. *)
Theorem no_encoder_passes_through (self : Agent) (time_step state : value)
        (with_experience : bool) :
  _encoding_network self = None ->
  logs (sees_raw time_step) (predict self time_step state) /\
  logs (sees_raw time_step) (rollout self time_step state with_experience).
Proof.
  intros Henc. split; intros w.
  - unfold predict, _encode, bind, getattr, _replace, lift, invoke, ret.
    rewrite Henc.
    destruct (py_getattr time_step "observation") as [obs|] eqn:Eo;
      [|log_leaf].
    cbn. rewrite (replace_getattr_id _ _ Eo).
    repeat (goal_split; cbn); log_leaf.
  - unfold rollout, _encode, bind, getattr, _replace, lift, invoke, ret.
    rewrite Henc.
    destruct (py_getattr time_step "observation") as [obs|] eqn:Eo;
      [|log_leaf].
    cbn. rewrite (replace_getattr_id _ _ Eo).
    repeat (goal_split; cbn); log_leaf.
Qed.

(** X6.  An exception of the policy's [rollout] leaves [rollout] as it is,
    after the encoder and the curiosity module have run: their calls are
    made and the hidden state they left is kept, and the entropy-target
    controller is not called. *)
Theorem rollout_policy_error (self : Agent) (time_step state : value)
        (with_experience : bool) (w : world)
        c_enc observation h1 c_icm icm_info icm_state h2
        time_step1 state_rl e h3 :
  encode_stage self time_step (hidden w) c_enc observation h1 ->
  icm_stage self time_step state observation with_experience h1
            c_icm icm_info icm_state h2 ->
  py_replace time_step "observation" observation = Ok time_step1 ->
  py_getattr state "rl" = Ok state_rl ->
  rl_rollout (_rl_algorithm self) time_step1 state_rl h2 = (Err e, h3) ->
  rollout self time_step state with_experience w =
  (Err e,
   {| next_id := next_id w; summaries := summaries w;
      calls := calls w ++ c_enc ++ c_icm ++ [RlRollout time_step1 state_rl];
      hidden := h3 |}).
Proof.
  intros Henc Hicm Hr Hs Hrl.
  unfold rollout. unfold bind at 1. rewrite (_encode_exec _ Henc).
  unfold bind, _replace, getattr, lift, invoke, ret.
  inversion Hicm; subst; exec; rewrite Hrl; cbn;
    rewrite ?app_nil_r, <- ?app_assoc; reflexivity.
Qed.

End StepFacts.

(** * More about rewards and losses *)

Section RewardLossFacts.
Context {R D H : Type} `{Numeric R}.

Abbreviation value := (pyval R D).
Abbreviation Agent := (@Agent R D H).
Abbreviation M := (@M R D H).
Abbreviation world := (@world R D H).
Abbreviation call := (@call R D).

(** X7.  With a curiosity module configured, [calc_loss] needs an info
    whose [icm] field has a [reward]: on any other info, the default [()]
    among them, it raises the error of the attribute lookup before it
    computes a loss, emits a summary or creates an object. *)
Theorem calc_loss_needs_icm_reward (self : Agent) icm
        (training_info info info_icm : value) e (w : world) :
  _icm self = Some icm ->
  py_getattr training_info "info" = Ok info ->
  py_getattr info "icm" = Ok info_icm ->
  py_getattr info_icm "reward" = Err e ->
  calc_loss self training_info w = (Err e, w).
Proof.
  intros Hi Hinfo Hicm Hr.
  unfold calc_loss, substitute_reward, icm_reward_is_tensor, bind, getattr,
    lift.
  rewrite Hi, Hinfo, Hicm, Hr. reflexivity.
Qed.

(** X8.  [preprocess_experience] does not tolerate a placeholder: when the
    stored intrinsic reward is a tuple, as the placeholder [()] is, and
    the rewards and coefficients are numbers, it raises a TypeError after
    the summary of the intrinsic reward has been emitted, and the policy's
    [preprocess_experience] is never called. *)
Theorem preprocess_experience_rejects_placeholder (self : Agent) icm
        (exp info info_icm icm_reward : value)
        kr ro r kc co ce io ci (w : world) :
  _icm self = Some icm ->
  _extrinsic_reward_coef self = PNum kc co ce ->
  _intrinsic_reward_coef self = PNum PyFloat io ci ->
  py_getattr exp "reward" = Ok (PNum kr ro r) ->
  py_getattr exp "info" = Ok info ->
  py_getattr info "icm" = Ok info_icm ->
  py_getattr info_icm "reward" = Ok icm_reward ->
  is_tuple icm_reward = true ->
  fst (preprocess_experience self exp w) = Err TypeError /\
  calls (snd (preprocess_experience self exp w)) = calls w /\
  hidden (snd (preprocess_experience self exp w)) = hidden w /\
  summaries (snd (preprocess_experience self exp w))
  = summaries w ++ [("reward/icm", icm_reward)].
Proof.
  intros Hi Hce Hci Hr Hinfo Hicm Hrew Ht.
  unfold preprocess_experience, calc_training_reward, bind, getattr, lift,
    py_mul, py_add, py_arith, alloc, add_reward_summary, ret.
  rewrite Hr, Hinfo, Hi, Hce, Hci. cbn -[Nat.eqb].
  destruct (negb (reqb ce rone)); cbn -[Nat.eqb];
    rewrite Hicm, Hrew; cbn -[Nat.eqb];
    destruct icm_reward; try discriminate; cbn; auto.
Qed.

(** X9.  For a reward object that exists when the call is made, a
    successful [calc_training_reward] emits the combined-reward summary
    exactly when it performs arithmetic, that is, when the extrinsic
    coefficient is not 1 or a curiosity module is configured, whether or
    not the arithmetic changes the value. *)
Theorem overall_summary_iff_composes (self : Agent)
        (external_reward info : value) (w w' : world) reward :
  allocated external_reward w ->
  calc_training_reward self external_reward info w = (Ok reward, w') ->
  summaries w' =
  summaries w ++ icm_summary self info
            ++ (if composes self then [("reward/overall", reward)] else []).
Proof.
  intros Ha E.
  rewrite (calc_training_reward_summaries _ _ _ _ E).
  pose proof (@calc_training_reward_same_object R D H _ self external_reward
                info w w' reward Ha E) as Hs.
  unfold composes.
  destruct (same_object reward external_reward).
  - destruct (proj1 Hs eq_refl) as (-> & ->). reflexivity.
  - destruct (py_ne_one (_extrinsic_reward_coef self)); [reflexivity|].
    destruct (_icm self); [reflexivity|].
    discriminate (proj2 Hs (conj eq_refl eq_refl)).
Qed.





Lemma quiet_ret {A} (a : A) : quiet (@ret R D H A a).
Proof. intros w. reflexivity. Qed.

Lemma quiet_lift {A} (r : result A) : quiet (@lift R D H A r).
Proof. intros w. reflexivity. Qed.

Lemma quiet_invoke {A} (c : call) (f : H -> result A * H) :
  quiet (invoke c f).
Proof. intros w. unfold invoke. destruct (f (hidden w)). reflexivity. Qed.

Lemma quiet_py_arith f (a b : value) : quiet (@py_arith R D H f a b).
Proof. intros w. destruct a, b; reflexivity. Qed.

Lemma quiet_bind {A B} (m : M A) (k : A -> M B) :
  quiet m -> (forall a, quiet (k a)) -> quiet (bind m k).
Proof.
  intros Hm Hk w. unfold bind. specialize (Hm w).
  destruct (m w) as [[a|e] w1]; simpl in *; [|assumption].
  rewrite Hk. assumption.
Qed.

Lemma _update_loss_quiet (loss_info training_info : value) name algorithm :
  quiet (@_update_loss R D H _ loss_info training_info name algorithm).
Proof.
  unfold _update_loss, _add, getattr, _replace, py_add.
  repeat (first [ apply quiet_ret
                | apply quiet_lift
                | apply quiet_py_arith
                | apply quiet_invoke
                | apply quiet_bind; [| intros ? ]
                | match goal with
                  | |- quiet (match ?x with _ => _ end) => destruct x
                  | |- quiet (if ?x then _ else _) => destruct x
                  end ]).
Qed.

Lemma substitute_reward_skipped (self : Agent) (training_info : value)
      (w : world) :
  curiosity_reward_computed self training_info = false ->
  snd (substitute_reward self training_info w) = w.
Proof.
  unfold substitute_reward, icm_reward_is_tensor, curiosity_reward_computed,
    bind, getattr, lift, ret.
  destruct (_icm self); cbn; [|reflexivity].
  destruct (py_getattr training_info "info") as [info|]; cbn; [|reflexivity].
  destruct (py_getattr info "icm") as [info_icm|]; cbn; [|reflexivity].
  destruct (py_getattr info_icm "reward") as [icm_reward|]; cbn;
    [|reflexivity].
  intros ->. reflexivity.
Qed.

(** X11.  [calc_loss] emits reward summaries only when it substitutes the
    reward: when there is no curiosity module, or the intrinsic reward in
    the info is not a tensor, the summaries after the call are those
    before it, whatever the sub-algorithms return or raise. *)
Theorem calc_loss_quiet_without_substitution (self : Agent)
        (training_info : value) (w : world) :
  curiosity_reward_computed self training_info = false ->
  summaries (snd (calc_loss self training_info w)) = summaries w.
Proof.
  intros Hc. unfold calc_loss.
  pose proof (substitute_reward_skipped self training_info w Hc) as Hs.
  unfold bind at 1.
  destruct (substitute_reward self training_info w) as [[t|e] w1];
    cbn in Hs; subst w1; [|reflexivity].
  match goal with
  | |- summaries (snd (?m w)) = _ =>
      assert (Hq : quiet m); [| apply Hq]
  end.
  unfold getattr, _replace.
  repeat (first [ apply quiet_ret
                | apply quiet_lift
                | apply quiet_invoke
                | apply _update_loss_quiet
                | apply quiet_bind; [| intros ? ] ]).
Qed.

End RewardLossFacts.

(** * The concrete agent at work *)

Module Examples.
Import Scenario.

Lemma plain_agent_constructed :
  __init__ EntropyTargetAlgorithm_cls action_spec (fun _ _ => Ok policy)
           None None (py_float 6 1) (py_float 7 1) false false
  = Ok plain_agent.
Proof. reflexivity. Qed.

Lemma curious_agent_constructed :
  __init__ EntropyTargetAlgorithm_cls action_spec (fun _ _ => Ok policy)
           None (Some curiosity) (py_float 6 2) (py_float 7 1) false false
  = Ok curious_agent.
Proof. reflexivity. Qed.

Lemma full_agent_constructed :
  __init__ EntropyTargetAlgorithm_cls action_spec (fun _ _ => Ok policy)
           (Some encoder) (Some curiosity) (py_float 6 2) (py_float 7 0.5)
           true false
  = Ok full_agent.
Proof. reflexivity. Qed.

(** With every sub-algorithm active the loss is 1.5 + 0.25 + 0.5; the
    curiosity module and the controller report no scalar loss, so the
    scalar loss is the policy's. *)
Lemma calc_loss_sums_losses_witness :
  exists li l sl,
    fst (calc_loss full_agent (training_info live_info) w0) = Ok li /\
    py_getattr li "loss" = Ok l /\
    py_getattr li "scalar_loss" = Ok sl /\
    tensor_payload l = Some 2.25%float /\
    sl = tf_tensor 2 1.5.
Proof.
  edestruct (@calc_loss_sums_losses float string nat _ full_agent
                                    (training_info live_info) w0)
    as (li & l & sl & A & B & C & P & Q & _ & S & _).
  - reflexivity.
  - reflexivity.
  - reflexivity.
  - reflexivity.
  - reflexivity.
  - repeat split; reflexivity.
  - eapply loss_done; try reflexivity. repeat split; reflexivity.
  - eapply loss_done; try reflexivity. repeat split; reflexivity.
  - exists li, l, sl. repeat split; try assumption.
    apply S. repeat constructor.
Defined.

Lemma calc_loss_extra_fields_witness :
  exists li extra,
    fst (calc_loss curious_agent (training_info live_info) w0) = Ok li /\
    py_getattr li "extra" = Ok extra /\
    extra = PNamed "AgentLossInfo"
                   [("rl", PData "actor_critic_loss");
                    ("icm", PData "icm_loss");
                    ("entropy_target", PUnit)].
Proof.
  edestruct (@calc_loss_extra_fields float string nat _ curious_agent
                                     (training_info live_info) w0)
    as (li & extra & A & B & C & _).
  - reflexivity.
  - reflexivity.
  - reflexivity.
  - reflexivity.
  - reflexivity.
  - repeat split; reflexivity.
  - eapply loss_done; try reflexivity. repeat split; reflexivity.
  - apply loss_skipped. reflexivity.
  - exists li, extra. repeat split; assumption.
Defined.

(** With a policy and a curiosity module and no entropy-target
    controller, the extra of the loss still has an [entropy_target]
    field. *)
Lemma calc_loss_extra_keeps_entropy_target :
  exists li extra,
    fst (calc_loss curious_agent (training_info live_info) w0) = Ok li /\
    py_getattr li "extra" = Ok extra /\
    In "entropy_target" (field_names extra) /\
    field_names extra <> ["rl"; "icm"].
Proof.
  eexists. eexists. split; [reflexivity|]. split; [reflexivity|].
  split; [simpl; auto | discriminate].
Qed.

(** Replaying stored experience: the curiosity module is asked not to
    compute its reward; the four collaborators are called in order. *)
Lemma rollout_order_witness :
  calls (snd (rollout full_agent time_step state true w0)) =
  [EncodingNetwork (PData "pixels");
   IcmTrainStep (PData "encoded") (PData "right") (PData "feature") false;
   RlRollout (PNamed "ActionTimeStep"
                     [("step_type", PData "MID");
                      ("reward", tf_tensor 8 5);
                      ("observation", PData "encoded");
                      ("prev_action", PData "right")])
             (PData "memory");
   EntropyTargetTrainStep (PData "left")] /\
  hidden (snd (rollout full_agent time_step state true w0)) = 2 /\
  exists step info info_icm,
    fst (rollout full_agent time_step state true w0) = Ok step /\
    py_getattr step "info" = Ok info /\
    py_getattr info "icm" = Ok info_icm /\
    py_getattr info_icm "reward" = Ok PUnit.
Proof.
  erewrite rollout_order;
    [ | eapply encode_done; reflexivity
      | eapply icm_done; reflexivity
      | reflexivity | reflexivity | reflexivity | reflexivity
      | reflexivity | reflexivity
      | eapply et_done; reflexivity ].
  split; [reflexivity|]. split; [reflexivity|].
  eexists. eexists. eexists. repeat split; reflexivity.
Defined.

(** With a live intrinsic reward the policy's loss sees 5 + 2 * 0.2; with
    the placeholder it sees the stored reward. *)
Lemma calc_loss_reward_substitution_witness :
  (exists new,
      calls (snd (calc_loss curious_agent (training_info live_info) w0))
      = calls w0 ++ new /\
      exists rl_training_info rest reward',
        new = RlCalcLoss rl_training_info :: rest /\
        py_getattr rl_training_info "reward" = Ok reward' /\
        num_payload reward' = Some 5.4%float) /\
  (exists new,
      calls (snd (calc_loss curious_agent (training_info replay_info) w0))
      = calls w0 ++ new /\
      exists rl_training_info rest,
        new = RlCalcLoss rl_training_info :: rest /\
        py_getattr rl_training_info "reward" = Ok (tf_tensor 8 5)).
Proof.
  split.
  - destruct (calc_loss_reward_substitution
                curious_agent (training_info live_info) w0)
      as (new & E & Hne & Hnew).
    exists new. split; [exact E|].
    destruct new as [|[| | | | |arg| |] rest];
      try (exfalso; exact Hnew);
      [exfalso; eapply Hne; reflexivity|].
    destruct Hnew as (_ & reward & info & reward' & A & B & C & Dr).
    exists arg, rest, reward'. split; [reflexivity|]. split; [exact Dr|].
    injection A as <-. injection B as <-. injection C as <-. reflexivity.
  - destruct (calc_loss_reward_substitution
                curious_agent (training_info replay_info) w0)
      as (new & E & Hne & Hnew).
    exists new. split; [exact E|].
    destruct new as [|[| | | | |arg| |] rest];
      try (exfalso; exact Hnew);
      [exfalso; eapply Hne; reflexivity|].
    destruct Hnew as (_ & Hr).
    exists arg, rest. split; [reflexivity | exact Hr].
Defined.

Lemma calc_training_reward_identity_and_summary_witness :
  calc_training_reward plain_agent (py_float 9 5) plain_info w0
  = (Ok (py_float 9 5), w0) /\
  summaries (snd (calc_training_reward curious_agent (py_float 9 5)
                                       live_info w0))
  = [("reward/icm", tf_tensor 3 0.2);
     ("reward/overall", tf_tensor 11 5.4)].
Proof.
  split.
  - apply (proj1 (calc_training_reward_identity_and_summary
                    plain_agent (py_float 9 5) plain_info w0));
      reflexivity.
  - erewrite (proj2 (calc_training_reward_identity_and_summary
                       curious_agent (py_float 9 5) live_info w0));
      [ | reflexivity ].
    reflexivity.
Defined.

(** A curiosity module with a predict state spec of its own is left out of
    the agent's [predict_state_spec]. *)
Lemma predict_state_spec_omits_curiosity :
  exists self,
    __init__ EntropyTargetAlgorithm_cls action_spec (fun _ _ => Ok policy)
             None (Some curiosity) (py_float 6 2) (py_float 7 1) false false
    = Ok self /\
    py_getattr (predict_state_spec self) "icm" = Ok PUnit /\
    py_getattr (predict_state_spec self) "icm"
    <> Ok (icm_predict_state_spec curiosity).
Proof.
  eexists. split; [reflexivity|]. split; [reflexivity | discriminate].
Qed.

Lemma init_state_specs_witness :
  train_state_spec full_agent
  = PNamed "AgentState" [("rl", PData "actor_state"); ("icm", PData "feature")] /\
  predict_state_spec full_agent
  = PNamed "AgentState" [("rl", PData "actor_state"); ("icm", PUnit)] /\
  predict_state_spec
    (fst (lifetime (full_agent, w0)
                   [OpRollout time_step state false;
                    OpCalcLoss (training_info live_info);
                    OpPredict time_step state]))
  = predict_state_spec full_agent.
Proof.
  destruct (init_state_specs _ _ _ _ _ _ _ _ _ full_agent_constructed)
    as (rl & E & _ & _ & Ht & Hp & Hl).
  injection E as <-.
  split; [exact Ht|]. split; [exact Hp|]. apply Hl.
Defined.

Lemma preprocess_experience_composes_witness :
  exists exp',
    fst (preprocess_experience curious_agent experience w0) = Ok exp' /\
    py_getattr exp' "reward" = Ok (tf_tensor 11 5.4) /\
    py_getattr exp' "observation" = Ok (PData "pixels") /\
    calls (snd (preprocess_experience curious_agent experience w0))
    = [RlPreprocessExperience exp'].
Proof.
  edestruct (@preprocess_experience_composes float string nat _
               curious_agent experience w0)
    as (exp' & A & B & C & Dn & E);
    [reflexivity | reflexivity | reflexivity |].
  exists exp'. rewrite E. injection A as <-.
  repeat split; reflexivity.
Defined.

Lemma predict_idempotent_witness :
  hidden (snd (predict full_agent time_step state w0)) = hidden w0 /\
  fst (predict full_agent time_step state
               (snd (predict full_agent time_step state w0)))
  = fst (predict full_agent time_step state w0).
Proof.
  apply (proj2 (proj2 (proj2 (predict_idempotent
                                full_agent time_step state w0)))).
  - intros net E observation h. injection E as <-. reflexivity.
  - intros ts st h. reflexivity.
Defined.

(** The input state holds a feature under [icm]; the state returned does
    not. *)
Lemma predict_drops_icm_state_witness :
  py_getattr state "icm" = Ok (PData "feature") /\
  exists step new_state,
    fst (predict full_agent time_step state w0) = Ok step /\
    py_getattr step "action" = Ok (PData "left") /\
    py_getattr step "info" = Ok PUnit /\
    py_getattr step "state" = Ok new_state /\
    new_state = PNamed "AgentState" [("rl", PData "memory"); ("icm", PUnit)].
Proof.
  split; [reflexivity|].
  eapply predict_drops_icm_state; reflexivity.
Defined.

(** The general statement at the full agent: 5 * 0.5 + 2 * 0.2. *)
Lemma calc_training_reward_composition_witness :
  exists reward,
    fst (calc_training_reward Scenario.full_agent (Scenario.py_float 9 5)
                              Scenario.live_info Scenario.w0) = Ok reward /\
    num_payload reward = Some 2.9%float.
Proof.
  destruct (proj1 calc_training_reward_composition
              float string nat _ Scenario.full_agent Scenario.curiosity
              Scenario.live_info
              (PNamed "ICMInfo" [("reward", Scenario.tf_tensor 3 0.2);
                                 ("loss", PData "icm_losses")])
              PyFloat 9 5%float PyFloat 7 0.5%float PyFloat 6 2%float
              TfTensor 3 0.2%float Scenario.w0
              eq_refl eq_refl eq_refl eq_refl eq_refl)
    as (reward & A & B).
  exists reward. split; [exact A | exact B].
Defined.


Lemma _add_algorithm_keeps_pairing_witness :
  exists optimizers' module_sets',
    _add_algorithm (Some curiosity_module) [Some (PData "adam")]
                   [[Some encoder_module; Some policy_module]]
    = Some (optimizers', module_sets') /\
    List.length optimizers' = List.length module_sets' /\
    module_sets' <> [] /\
    firstn 1 optimizers' = [Some (PData "adam")].
Proof.
  apply _add_algorithm_keeps_pairing
    with (algorithm := Some curiosity_module)
         (optimizers := [Some (PData "adam")])
         (module_sets := [[Some encoder_module; Some policy_module]]).
  - reflexivity.
  - discriminate.
Defined.

(** No entropy-target controller: the info of the step has [()] there. *)
Lemma rollout_step_shape_witness :
  exists step w',
    rollout curious_agent time_step state false w0 = (Ok step, w') /\
    exists action rl_state icm_state rl_info icm_info et_info,
      step = PNamed "PolicyStep"
                    [("action", action);
                     ("state", PNamed "AgentState"
                                 [("rl", rl_state); ("icm", icm_state)]);
                     ("info", PNamed "AgentInfo"
                                [("rl", rl_info); ("icm", icm_info);
                                 ("entropy_target", et_info)])] /\
      (_icm curious_agent = None -> icm_state = PUnit /\ icm_info = PUnit) /\
      (_entropy_target_algorithm curious_agent = None -> et_info = PUnit).
Proof.
  eexists. eexists. split; [vm_compute; reflexivity|].
  eapply rollout_step_shape
    with (self := curious_agent) (time_step := time_step) (state := state)
         (with_experience := false) (w := w0).
  vm_compute. reflexivity.
Defined.

Lemma no_encoder_passes_through_witness :
  logs (sees_raw time_step) (predict curious_agent time_step state) /\
  logs (sees_raw time_step) (rollout curious_agent time_step state false).
Proof. apply no_encoder_passes_through. reflexivity. Defined.

(** The curiosity module has taken its step when the policy fails. *)
Lemma rollout_policy_error_witness :
  fst (rollout failing_agent time_step state false w0)
  = Err (Failure "nan in logits") /\
  calls (snd (rollout failing_agent time_step state false w0)) =
  [EncodingNetwork (PData "pixels");
   IcmTrainStep (PData "encoded") (PData "right") (PData "feature") true;
   RlRollout (PNamed "ActionTimeStep"
                     [("step_type", PData "MID");
                      ("reward", tf_tensor 8 5);
                      ("observation", PData "encoded");
                      ("prev_action", PData "right")])
             (PData "memory")] /\
  hidden (snd (rollout failing_agent time_step state false w0)) = 2.
Proof.
  erewrite rollout_policy_error;
    [ | eapply encode_done; reflexivity
      | eapply icm_done; reflexivity
      | reflexivity | reflexivity | reflexivity ].
  repeat split; reflexivity.
Defined.

(** The info of a step taken without a curiosity module, given to an agent
    that has one. *)
Lemma calc_loss_needs_icm_reward_witness :
  calc_loss curious_agent (training_info plain_info) w0
  = (Err (AttributeError "reward"), w0).
Proof.
  eapply calc_loss_needs_icm_reward; reflexivity.
Defined.

Lemma preprocess_experience_rejects_placeholder_witness :
  fst (preprocess_experience curious_agent replay_experience w0)
  = Err TypeError /\
  calls (snd (preprocess_experience curious_agent replay_experience w0))
  = calls w0 /\
  hidden (snd (preprocess_experience curious_agent replay_experience w0))
  = hidden w0 /\
  summaries (snd (preprocess_experience curious_agent replay_experience w0))
  = summaries w0 ++ [("reward/icm", PUnit)].
Proof.
  eapply preprocess_experience_rejects_placeholder; reflexivity.
Defined.

(** The plain agent performs no arithmetic and emits nothing; the full
    agent emits both summaries. *)
Lemma overall_summary_iff_composes_witness :
  summaries (snd (calc_training_reward plain_agent (py_float 9 5)
                                       plain_info w0)) = [] /\
  summaries (snd (calc_training_reward full_agent (py_float 9 5)
                                       live_info w0))
  = [("reward/icm", tf_tensor 3 0.2); ("reward/overall", tf_tensor 12 2.9)].
Proof.
  split.
  - erewrite (@overall_summary_iff_composes float string nat _ plain_agent
                (py_float 9 5) plain_info w0);
      [ | cbn; lia | reflexivity ].
    reflexivity.
  - erewrite (@overall_summary_iff_composes float string nat _ full_agent
                (py_float 9 5) live_info w0);
      [ | cbn; lia | reflexivity ].
    reflexivity.
Defined.

Lemma calc_loss_quiet_without_substitution_witness :
  summaries (snd (calc_loss curious_agent (training_info replay_info) w0))
  = [].
Proof.
  apply (calc_loss_quiet_without_substitution
           curious_agent (training_info replay_info) w0).
  reflexivity.
Defined.

End Examples.
